(** * AutoPR: progressive publication of a pull-request description

    Shallow embedding of [autopr/services/publish_service.py]
    ([PublishService] and [GithubPublishService]) and the properties of
    its report accumulation, fragment rendering, body composition and
    remote reconciliation.

    Python [str] values are modelled by [string]; every character stands
    for one code point below 256.  Python [int] is [Z]. *)

From Stdlib Require Import ZArith List Bool Ascii String Lia.
From Stdlib Require Import DecimalString.
Import ListNotations.
Open Scope string_scope.
Set Warnings "-register-all".

(** ** Python string primitives used by the service *)

Module PyStr.

(** The line-feed character and the one-character string ["\n"]. *)
Definition lf : ascii := ascii_of_nat 10.
Definition cr : ascii := ascii_of_nat 13.
Definition nl : string := String lf EmptyString.

(** [str(n)] for an [int]: decimal digits, with a leading minus sign. *)
Definition str_int (n : Z) : string := NilZero.string_of_int (Z.to_int n).

(** Line boundaries of [str.splitlines] among the code points below 256:
    LF, VT, FF, CR, FS, GS, RS and NEL. *)
Definition is_linebreak (c : ascii) : bool :=
  let n := nat_of_ascii c in
  (Nat.eqb n 10 || Nat.eqb n 11 || Nat.eqb n 12 || Nat.eqb n 13
   || Nat.eqb n 28 || Nat.eqb n 29 || Nat.eqb n 30 || Nat.eqb n 133)%bool.

(** [splitlines_from cur s]: [cur] is the line read so far.  A CR directly
    followed by LF is one boundary; text after the last boundary is a line
    only when it is not empty. *)
Fixpoint splitlines_from (cur s : string) : list string :=
  match s with
  | EmptyString =>
      match cur with
      | EmptyString => []
      | _ => [cur]
      end
  | String c rest =>
      if Ascii.eqb c cr then
        match rest with
        | String c2 rest2 =>
            if Ascii.eqb c2 lf then cur :: splitlines_from EmptyString rest2
            else cur :: splitlines_from EmptyString rest
        | EmptyString => cur :: splitlines_from EmptyString rest
        end
      else if is_linebreak c then cur :: splitlines_from EmptyString rest
      else splitlines_from (cur ++ String c EmptyString) rest
  end.

(** [s.splitlines()] *)
Definition splitlines (s : string) : list string := splitlines_from EmptyString s.

(** [sep.join(parts)] *)
Definition join (sep : string) (parts : list string) : string :=
  String.concat sep parts.

(** [s.replace(old, new)] for a one-character [old] and [new]. *)
Fixpoint replace_char (old new : ascii) (s : string) : string :=
  match s with
  | EmptyString => EmptyString
  | String c rest =>
      String (if Ascii.eqb c old then new else c) (replace_char old new rest)
  end.

(** Case of the code points below 256, as [str.title] sees it: the
    upper-case letters are A-Z, U+00C0-U+00D6 and U+00D8-U+00DE; the
    lower-case ones are a-z, U+00AA, U+00B5, U+00BA, U+00DF-U+00F6 and
    U+00F8-U+00FF. *)
Definition between (lo hi n : nat) : bool := (Nat.leb lo n && Nat.leb n hi)%bool.
Definition is_upper (c : ascii) : bool :=
  let n := nat_of_ascii c in
  (between 65 90 n || between 192 214 n || between 216 222 n)%bool.
Definition is_lower (c : ascii) : bool :=
  let n := nat_of_ascii c in
  (between 97 122 n || Nat.eqb n 170 || Nat.eqb n 181 || Nat.eqb n 186
   || between 223 246 n || between 248 255 n)%bool.
Definition is_cased (c : ascii) : bool := (is_upper c || is_lower c)%bool.

(** The lower case of a character that follows a cased one. *)
Definition to_lower (c : ascii) : ascii :=
  if is_upper c then ascii_of_nat (nat_of_ascii c + 32) else c.

(** The title case of a character that starts a word: the upper-case
    letter of a lower-case one, and the two characters [Ss] for U+00DF.
    The title case of U+00B5 and of U+00FF is U+039C and U+0178, which
    this alphabet does not hold: the two are left as they are, and a text
    with one of them at the start of a word is outside the model
    ([title_in_alphabet] is false of it). *)
Definition title_char (c : ascii) : string :=
  let n := nat_of_ascii c in
  if Nat.eqb n 223 then "Ss"
  else if (between 97 122 n || between 224 246 n || between 248 254 n)%bool
       then String (ascii_of_nat (n - 32)) EmptyString
       else String c EmptyString.

(** [s.title()]: a character is title-cased when the character before it
    is not cased and lower-cased otherwise. *)
Fixpoint title_from (previous_is_cased : bool) (s : string) : string :=
  match s with
  | EmptyString => EmptyString
  | String c rest =>
      (if previous_is_cased then String (to_lower c) EmptyString
       else title_char c)
      ++ title_from (is_cased c) rest
  end.

(** Whether the title case of [s] stays below code point 256: no U+00B5
    and no U+00FF at the start of a word. *)
Fixpoint title_in_alphabet_from (previous_is_cased : bool) (s : string) : bool :=
  match s with
  | EmptyString => true
  | String c rest =>
      ((previous_is_cased
        || negb (Nat.eqb (nat_of_ascii c) 181 || Nat.eqb (nat_of_ascii c) 255))
       && title_in_alphabet_from (is_cased c) rest)%bool
  end.

Definition title_in_alphabet (s : string) : bool :=
  title_in_alphabet_from false s.

(** Whether every character of [s] is an ASCII character. *)
Fixpoint is_ascii (s : string) : bool :=
  match s with
  | EmptyString => true
  | String c rest => (Nat.ltb (nat_of_ascii c) 128 && is_ascii rest)%bool
  end.

Definition title (s : string) : string := title_from false s.

(** [needle in haystack] for a tuple or list of strings. *)
Definition contains (haystack : list string) (needle : string) : bool :=
  existsb (String.eqb needle) haystack.

(** Number of positions of [s] at which [p] occurs (occurrences may
    overlap). *)
Fixpoint occurrences (p s : string) : nat :=
  (if String.prefix p s then 1 else 0) +
  match s with
  | EmptyString => 0
  | String _ rest => occurrences p rest
  end.

End PyStr.

(** ** Data model *)

(** Modelled from the spec: [autopr.models.artifacts.Issue], of which the
    service reads [number] and [title]. *)
Module Issue.
Record t := mk { number : Z; title : string }.
End Issue.

(** Modelled from the spec: [autopr.models.rail_objects.CommitPlan], opaque
    to the service beyond its commit-message field. *)
Module CommitPlan.
Record t := mk { commit_message : string }.
End CommitPlan.

(** Modelled from the spec: [autopr.models.rail_objects.PullRequestDescription],
    built by the service with the fields [title], [body] and [commits]. *)
Module PullRequestDescription.
Record t := mk { title : string; body : string; commits : list CommitPlan.t }.
End PullRequestDescription.

(** Values decoded by [response.json()].  Numbers are integers; the Python
    [None] is [JNull]. *)
Inductive json : Type :=
| JNull
| JBool (b : bool)
| JInt (n : Z)
| JStr (s : string)
| JList (items : list json)
| JDict (entries : list (string * json)).

(** Truth value of a decoded value in an [if]. *)
Definition truthy (v : json) : bool :=
  match v with
  | JNull => false
  | JBool b => b
  | JInt n => negb (Z.eqb n 0)
  | JStr s => negb (String.eqb s EmptyString)
  | JList items => match items with [] => false | _ => true end
  | JDict entries => match entries with [] => false | _ => true end
  end.

(** Exceptions the modelled code can raise. *)
Inductive exn : Type :=
| RequestException      (* [requests] could not obtain a response *)
| JSONDecodeError       (* [response.json()] on a body that is not JSON *)
| KeyError
| TypeError
| NotImplementedError.

Inductive Result (A : Type) : Type :=
| Ok (a : A)
| Raise (e : exn).
Arguments Ok {A} a.
Arguments Raise {A} e.

(** ** The remote service and the trace of effects *)

Inductive Method := GET | POST | PATCH.

(** [UrlPulls owner repo] is
    [https://api.github.com/repos/<owner>/<repo>/pulls];
    [UrlPull owner repo number] is that text followed by [/<number>], where
    [number] is the decoded value the f-string formats. *)
Inductive Url : Type :=
| UrlPulls (owner repo : string)
| UrlPull (owner repo : string) (number : json).

Record Request := mkRequest {
  method : Method;
  url : Url;
  headers : list (string * string);
  params : list (string * string);     (* query parameters of a GET *)
  data : list (string * string)        (* JSON object sent by POST and PATCH *)
}.

Record Response := mkResponse {
  status_code : Z;
  text : string;
  json_body : option json   (* [None]: [response.json()] raises *)
}.

Inductive HttpResult : Type :=
| Responded (r : Response)
| Unreachable.              (* the call raises instead of returning *)

Inductive LogDetail : Type :=
| NoDetail
| ResponseJson (j : json)
| ResponseText (t : string).

Inductive Event : Type :=
| EvCommit (c : CommitPlan.t)
| EvRequest (r : Request) (answer : HttpResult)
| EvLog (msg : string) (detail : LogDetail).

Definition Trace := list Event.

(** ** State and exception monad *)

Definition SE (S A : Type) : Type := S -> Result A * S.

Definition ret {S A} (a : A) : SE S A := fun s => (Ok a, s).
Definition raise {S A} (e : exn) : SE S A := fun s => (Raise e, s).
Definition bind {S A B} (c : SE S A) (k : A -> SE S B) : SE S B :=
  fun s =>
    match c s with
    | (Ok a, s') => k a s'
    | (Raise e, s') => (Raise e, s')
    end.

Declare Scope se_scope.
Delimit Scope se_scope with se.
Notation "x <- c ;; k" := (bind c (fun x => k))
  (at level 61, c at next level, right associativity) : se_scope.
Notation "c ;; k" := (bind c (fun _ => k))
  (at level 61, right associativity) : se_scope.
Open Scope se_scope.

(** Code that only talks to the outside world threads the trace. *)
Definition Eff (A : Type) : Type := SE Trace A.

Definition emit (e : Event) : Eff unit := fun tr => (Ok tt, (tr ++ [e])%list).

(** [log.debug(msg, ...)] *)
Definition log_debug (msg : string) (detail : LogDetail) : Eff unit :=
  emit (EvLog msg detail).

(** Modelled from the spec: [CommitService.commit], the Commit Recorder's
    [commit(commitPlan) -> void]; the call is recorded in the trace. *)
Definition commit (c : CommitPlan.t) : Eff unit := emit (EvCommit c).

(** [response.json()] *)
Definition response_json {S} (r : Response) : SE S json :=
  match json_body r with
  | Some j => ret j
  | None => raise JSONDecodeError
  end.

(** [v[0]] *)
Definition subscript_0 {S} (v : json) : SE S json :=
  match v with
  | JList (x :: _) => ret x
  | JList [] => raise KeyError  (* IndexError; not reached on a true value *)
  | JStr (String c _) => ret (JStr (String c EmptyString))
  | JStr EmptyString => raise KeyError
  | JDict _ => raise KeyError
  | _ => raise TypeError
  end.

Fixpoint dict_get (entries : list (string * json)) (key : string) : option json :=
  match entries with
  | [] => None
  | (k, v) :: rest => if String.eqb k key then Some v else dict_get rest key
  end.

(** [v[key]] for a string key. *)
Definition subscript_key {S} (v : json) (key : string) : SE S json :=
  match v with
  | JDict entries =>
      match dict_get entries key with
      | Some x => ret x
      | None => raise KeyError
      end
  | _ => raise TypeError
  end.

(** ** The report accumulator: [PublishService] *)

Module PublishService.

(** The fields of the object: [self.issue], [self.pr_desc] and
    [self.progress_updates]. *)
Record t := mk {
  issue : Issue.t;
  pr_desc : PullRequestDescription.t;
  progress_updates : list string
}.

(** A method runs on the object and the trace. *)
Definition M (A : Type) : Type := SE (t * Trace) A.

Definition lift {A} (c : Eff A) : M A :=
  fun st =>
    match c (snd st) with
    | (r, tr') => (r, (fst st, tr'))
    end.

Definition get_self : M t := fun st => (Ok (fst st), st).
Definition modify_self (f : t -> t) : M unit :=
  fun st => (Ok tt, (f (fst st), snd st)).

Definition empty_commit : CommitPlan.t :=
  CommitPlan.mk "[empty] Running...".

(** [_create_placeholder(issue)] *)
Definition _create_placeholder (issue : Issue.t)
  : Eff PullRequestDescription.t :=
  commit empty_commit ;;
  ret (PullRequestDescription.mk
         ("Fix #" ++ PyStr.str_int (Issue.number issue) ++ ": "
                  ++ Issue.title issue)
         EmptyString
         [empty_commit]).

(** [__init__(issue, commit_service)] *)
Definition __init__ (issue : Issue.t) : Eff t :=
  placeholder <- _create_placeholder issue ;;
  ret (mk issue placeholder []).

(** The quoting comprehension
    ['\n'.join([f"> {line}" for line in v.splitlines()])]. *)
Definition quote_lines (v : string) : string :=
  PyStr.join PyStr.nl (map (fun line => "> " ++ line) (PyStr.splitlines v)).

(** One turn of the loop of [publish_call]: the block of section [k]
    with text [v]. *)
Definition subsection (default_open : list string) (k v : string) : string :=
  let title := PyStr.replace_char "_" " " (PyStr.title k) in
  let content := quote_lines v in
  "<details" ++ (if PyStr.contains default_open k then " open" else EmptyString) ++ ">"
    ++ PyStr.nl
    ++ "<summary>" ++ title ++ "</summary>" ++ PyStr.nl
    ++ PyStr.nl
    ++ content ++ PyStr.nl
    ++ "</details>".

(** The text [publish_call] hands to [publish_update]. *)
Definition progress_str (summary : string) (default_open : list string)
    (kwargs : list (string * string)) : string :=
  let subsections := map (fun kv => subsection default_open (fst kv) (snd kv)) kwargs in
  let subsections_content := PyStr.join (PyStr.nl ++ PyStr.nl) subsections in
  let subsections_content := quote_lines subsections_content in
  "<details>" ++ PyStr.nl
    ++ "<summary>" ++ summary ++ "</summary>" ++ PyStr.nl
    ++ PyStr.nl
    ++ subsections_content ++ PyStr.nl
    ++ PyStr.nl
    ++ "</details>" ++ PyStr.nl.

Definition default_open_default : list string := ["response"].

(** [_build_progress_updates()] *)
Definition _build_progress_updates (self : t) : string :=
  match progress_updates self with
  | [] => EmptyString
  | updates =>
      fold_left (fun body update => body ++ PyStr.nl ++ update) updates
                ("# Progress updates" ++ PyStr.nl)
  end.

(** [_build_body(finalize)] *)
Definition _build_body (self : t) (finalize : bool) : string :=
  let body := "Fixes #" ++ PyStr.str_int (Issue.number (issue self))
                ++ PyStr.nl ++ PyStr.nl in
  let body := body ++ PullRequestDescription.body (pr_desc self) in
  let progress := _build_progress_updates self in
  let progress :=
    if finalize then
      "<details>" ++ PyStr.nl
        ++ "  <summary>Click to see progress updates</summary>" ++ PyStr.nl
        ++ PyStr.nl
        ++ "  " ++ progress ++ PyStr.nl
        ++ "</details>" ++ PyStr.nl
    else progress in
  body ++ progress.

Section Methods.

(** [_publish(title, body)], supplied by the subclass.  It reads the
    subclass's own configuration and talks to the remote service. *)
Variable _publish : string -> string -> Eff unit.

(** [update()] *)
Definition update : M unit :=
  self <- get_self ;;
  let body := _build_body self false in
  let title := PullRequestDescription.title (pr_desc self) in
  lift (_publish title body).

(** [finalize()] *)
Definition finalize : M unit :=
  self <- get_self ;;
  let body := _build_body self true in
  let title := PullRequestDescription.title (pr_desc self) in
  lift (_publish title body).

(** [set_pr_description(pr)] *)
Definition set_pr_description (pr : PullRequestDescription.t) : M unit :=
  modify_self (fun self => mk (issue self) pr (progress_updates self)) ;;
  update.

(** [publish_update(text)] *)
Definition publish_update (text : string) : M unit :=
  modify_self (fun self =>
    mk (issue self) (pr_desc self) (progress_updates self ++ [text])%list) ;;
  update.

(** [publish_call(summary, default_open, **kwargs)] *)
Definition publish_call (summary : string) (default_open : list string)
    (kwargs : list (string * string)) : M unit :=
  publish_update (progress_str summary default_open kwargs).

(** The entry points that change or push the report. *)
Inductive Op : Type :=
| OpSetPrDescription (pr : PullRequestDescription.t)
| OpPublishUpdate (text : string)
| OpPublishCall (summary : string) (default_open : list string)
                (kwargs : list (string * string))
| OpFinalize.

Definition call (op : Op) : M unit :=
  match op with
  | OpSetPrDescription pr => set_pr_description pr
  | OpPublishUpdate text => publish_update text
  | OpPublishCall summary default_open kwargs =>
      publish_call summary default_open kwargs
  | OpFinalize => finalize
  end.

(** A caller that performs the calls one after the other and carries on
    after a call that raised; the outcomes are returned in call order. *)
Fixpoint run (ops : list Op) (st : t * Trace)
  : list (Result unit) * (t * Trace) :=
  match ops with
  | [] => ([], st)
  | op :: rest =>
      match call op st with
      | (r, st') =>
          match run rest st' with
          | (rs, st'') => (r :: rs, st'')
          end
      end
  end.

End Methods.

(** [_publish] of the base class. *)
Definition _publish (title body : string) : Eff unit :=
  raise NotImplementedError.

End PublishService.

(** ** The remote reconciler: [GithubPublishService] *)

Module GithubPublishService.

(** The fields the subclass adds to the object. *)
Record Config := mkConfig {
  token : string;
  owner : string;
  repo : string;
  head_branch : string;
  base_branch : string
}.

Section Remote.

(** The remote service: what a request is answered with, given all that
    happened before it. *)
Variable net : Trace -> Request -> HttpResult.
Variable self : Config.

(** [requests.get], [requests.post] and [requests.patch] *)
Definition send (req : Request) : Eff Response :=
  fun tr =>
    match net tr req with
    | Responded r => (Ok r, (tr ++ [EvRequest req (Responded r)])%list)
    | Unreachable =>
        (Raise RequestException, (tr ++ [EvRequest req Unreachable])%list)
    end.

(** [_get_headers()] *)
Definition _get_headers : list (string * string) :=
  [ ("Authorization", "Bearer " ++ token self);
    ("Accept", "application/vnd.github+json");
    ("X-GitHub-Api-Version", "2022-11-28") ].

Definition find_request : Request :=
  mkRequest GET (UrlPulls (owner self) (repo self)) _get_headers
    [ ("state", "open");
      ("head", owner self ++ ":" ++ head_branch self);
      ("base", base_branch self) ]
    [].

Definition create_request (title body : string) : Request :=
  mkRequest POST (UrlPulls (owner self) (repo self)) _get_headers []
    [ ("head", head_branch self);
      ("base", base_branch self);
      ("title", title);
      ("body", body) ].

Definition update_request (number : json) (title body : string) : Request :=
  mkRequest PATCH (UrlPull (owner self) (repo self) number) _get_headers []
    [ ("title", title); ("body", body) ].

(** [_find_existing_pr()]; the Python [None] is [JNull]. *)
Definition _find_existing_pr : Eff json :=
  response <- send find_request ;;
  if Z.eqb (status_code response) 200 then
    prs <- response_json response ;;
    if truthy prs then subscript_0 prs
    else ret JNull
  else
    log_debug "Failed to get pull requests" (ResponseText (text response)) ;;
    ret JNull.

(** [_create_pr(title, body)] *)
Definition _create_pr (title body : string) : Eff unit :=
  response <- send (create_request title body) ;;
  if Z.eqb (status_code response) 201 then
    j <- response_json response ;;
    log_debug "Pull request created successfully" (ResponseJson j)
  else
    log_debug "Failed to create pull request" (ResponseText (text response)).

(** [_update(title, body)] *)
Definition _update (title body : string) : Eff unit :=
  existing_pr <- _find_existing_pr ;;
  if negb (truthy existing_pr) then
    log_debug "No existing pull request found to update" NoDetail
  else
    number <- subscript_key existing_pr "number" ;;
    response <- send (update_request number title body) ;;
    if Z.eqb (status_code response) 200 then
      j <- response_json response ;;
      log_debug "Pull request updated successfully" (ResponseJson j)
    else
      log_debug "Failed to update pull request" (ResponseText (text response)).

(** [_publish(title, body)] *)
Definition _publish (title body : string) : Eff unit :=
  existing_pr <- _find_existing_pr ;;
  if truthy existing_pr then _update title body
  else _create_pr title body.

(** [__init__(issue, commit_service, token, owner, repo_name, head_branch,
    base_branch)]: the base class's initialisation, then the fields of
    [self] above. *)
Definition __init__ (issue : Issue.t) : Eff PublishService.t :=
  PublishService.__init__ issue.

(** The inherited entry points, bound to this class's [_publish]. *)
Definition update := PublishService.update _publish.
Definition finalize := PublishService.finalize _publish.
Definition set_pr_description := PublishService.set_pr_description _publish.
Definition publish_update := PublishService.publish_update _publish.
Definition publish_call := PublishService.publish_call _publish.
Definition run := PublishService.run _publish.

End Remote.

End GithubPublishService.

(** ** Observations on a trace *)

(** The requests of a trace, in the order they were sent. *)
Fixpoint requests_of (tr : Trace) : list Request :=
  match tr with
  | [] => []
  | EvRequest r _ :: rest => r :: requests_of rest
  | _ :: rest => requests_of rest
  end.

(** The commits recorded in a trace. *)
Fixpoint commits_of (tr : Trace) : list CommitPlan.t :=
  match tr with
  | [] => []
  | EvCommit c :: rest => c :: commits_of rest
  | _ :: rest => commits_of rest
  end.

(** The status a response must have for the call to count as done. *)
Definition success_code (m : Method) : Z :=
  match m with
  | GET => 200
  | POST => 201
  | PATCH => 200
  end.

(** The message logged for a response with another status. *)
Definition failure_message (m : Method) : string :=
  match m with
  | GET => "Failed to get pull requests"
  | POST => "Failed to create pull request"
  | PATCH => "Failed to update pull request"
  end.

(** [logged_from pending tr]: in [tr], every response whose status is not
    the success code of its request is followed at once by the log entry
    for it, carrying the response text.  [pending] is the entry that must
    come next, if any. *)
Fixpoint logged_from (pending : option (string * string)) (tr : Trace) : bool :=
  match pending, tr with
  | None, [] => true
  | Some _, [] => false
  | None, EvRequest req (Responded r) :: rest =>
      if Z.eqb (status_code r) (success_code (method req))
      then logged_from None rest
      else logged_from (Some (failure_message (method req), text r)) rest
  | None, _ :: rest => logged_from None rest
  | Some (msg, t), EvLog msg' (ResponseText t') :: rest =>
      (String.eqb msg msg' && String.eqb t t' && logged_from None rest)%bool
  | Some _, _ :: _ => false
  end.

Definition failures_logged (tr : Trace) : bool := logged_from None tr.

(** A response the code can use: when its status is the success code, its
    body decodes, and for the find request it decodes to a list whose
    first element, if there is one, is an object with a ["number"]. *)
Definition usable (req : Request) (r : Response) : Prop :=
  status_code r = success_code (method req) ->
  match method req with
  | GET =>
      exists items,
        json_body r = Some (JList items)
        /\ match items with
           | [] => True
           | pr :: _ =>
               exists entries number,
                 pr = JDict entries /\ dict_get entries "number" = Some number
           end
  | _ => json_body r <> None
  end.

(** ** Definitions used by the statements *)

(** [extends c]: running [c] appends to the trace it is given. *)
Definition extends {A} (c : Eff A) : Prop :=
  forall tr, exists more, snd (c tr) = (tr ++ more)%list.

Fixpoint mem_char (c : ascii) (s : string) : bool :=
  match s with
  | EmptyString => false
  | String a rest => (Ascii.eqb c a || mem_char c rest)%bool
  end.

(** A text that is empty or starts with a character outside the phrase. *)
Definition starts_outside (p z : string) : Prop :=
  z = EmptyString \/ exists c z', z = String c z' /\ mem_char c p = false.

(** The characters of [str(n)] are decimal digits and the minus sign. *)
Definition is_digit_or_minus (c : ascii) : bool :=
  let n := nat_of_ascii c in
  ((Nat.leb 48 n && Nat.leb n 57) || Nat.eqb n 45)%bool.

(** The fragments as the loop of [_build_progress_updates] lays them out:
    each one after a line feed. *)
Fixpoint fragments_text (updates : list string) : string :=
  match updates with
  | [] => EmptyString
  | update :: rest => PyStr.nl ++ update ++ fragments_text rest
  end.

(** The title of the block that [finalize] wraps the progress text in. *)
Definition phrase : string := "Click to see progress updates".

Fixpoint no_linebreak (s : string) : bool :=
  match s with
  | EmptyString => true
  | String c rest => (negb (PyStr.is_linebreak c) && no_linebreak rest)%bool
  end.

(** The last step of [_update], once the request to patch is known: the
    PATCH and the log entry for its answer. *)
Definition patch (net : Trace -> Request -> HttpResult)
    (self : GithubPublishService.Config)
    (number : json) (title body : string) : Eff unit :=
  response <- GithubPublishService.send net
                (GithubPublishService.update_request self number title body) ;;
  if Z.eqb (status_code response) 200 then
    j <- response_json response ;;
    log_debug "Pull request updated successfully" (ResponseJson j)
  else
    log_debug "Failed to update pull request" (ResponseText (text response)).

(** Concrete objects and remote services. *)

Definition example_accumulator (body : string) (updates : list string)
  : PublishService.t :=
  PublishService.mk (Issue.mk 42 "Fix null pointer")
    (PullRequestDescription.mk "Fix #42: Fix null pointer" body
       [PublishService.empty_commit])
    updates.

Definition example_config : GithubPublishService.Config :=
  GithubPublishService.mkConfig "secret" "octo" "demo" "autopr/42" "main".

Definition open_request_7 : json :=
  JDict [("number", JInt 7); ("state", JStr "open")].

Definition found_response : Response :=
  mkResponse 200 "[{...}]" (Some (JList [open_request_7])).

Definition none_response : Response :=
  mkResponse 200 "[]" (Some (JList [])).

Definition rejected_response : Response :=
  mkResponse 422 "Validation Failed" None.

(** The requests the reconciler is expected to send for [example_config],
    written out field by field. *)
Definition example_headers : list (string * string) :=
  [("Authorization", "Bearer secret");
   ("Accept", "application/vnd.github+json");
   ("X-GitHub-Api-Version", "2022-11-28")].

Definition example_find : Request :=
  mkRequest GET (UrlPulls "octo" "demo") example_headers
    [("state", "open"); ("head", "octo:autopr/42"); ("base", "main")]
    [].

Definition example_post (title body : string) : Request :=
  mkRequest POST (UrlPulls "octo" "demo") example_headers []
    [("head", "autopr/42"); ("base", "main");
     ("title", title); ("body", body)].

Definition example_patch (number : json) (title body : string) : Request :=
  mkRequest PATCH (UrlPull "octo" "demo" number) example_headers []
    [("title", title); ("body", body)].

(** A service that cannot be reached. *)
Definition net_unreachable : Trace -> Request -> HttpResult :=
  fun _ _ => Unreachable.

(** A service that lists request 7 and rejects every write. *)
Definition net_found : Trace -> Request -> HttpResult :=
  fun _ req =>
    match method req with
    | GET => Responded found_response
    | _ => Responded rejected_response
    end.

(** A service that lists no request and rejects every write. *)
Definition net_none : Trace -> Request -> HttpResult :=
  fun _ req =>
    match method req with
    | GET => Responded none_response
    | _ => Responded rejected_response
    end.

(** A service on which request 7 is gone after the first find. *)
Definition net_vanishing : Trace -> Request -> HttpResult :=
  fun tr req =>
    match method req, requests_of tr with
    | GET, [] => Responded found_response
    | GET, _ => Responded none_response
    | _, _ => Responded rejected_response
    end.

(** Whether an entry point composes the body with [finalize=True]. *)
Definition is_finalize (op : PublishService.Op) : bool :=
  match op with
  | PublishService.OpFinalize => true
  | _ => false
  end.

(** What every request of the reconciler carries: the headers of
    [_get_headers], among them the bearer token, and a URL under the
    configured repository's pulls. *)
Definition well_addressed (self : GithubPublishService.Config)
    (req : Request) : Prop :=
  headers req = GithubPublishService._get_headers self
  /\ In ("Authorization", "Bearer " ++ GithubPublishService.token self)
        (headers req)
  /\ (url req = UrlPulls (GithubPublishService.owner self)
                  (GithubPublishService.repo self)
      \/ exists number,
           url req = UrlPull (GithubPublishService.owner self)
                       (GithubPublishService.repo self) number).

(** More remote services: one whose listing fails, one that lists a
    request without a number, one that answers the POST with status 201
    and a body that is not JSON. *)
Definition unavailable_response : Response :=
  mkResponse 503 "Service Unavailable" None.

Definition net_listing_fails : Trace -> Request -> HttpResult :=
  fun _ req =>
    match method req with
    | GET => Responded unavailable_response
    | _ => Responded rejected_response
    end.

Definition unnumbered_response : Response :=
  mkResponse 200 "[{...}]" (Some (JList [JDict [("state", JStr "open")]])).

Definition net_unnumbered : Trace -> Request -> HttpResult :=
  fun _ req =>
    match method req with
    | GET => Responded unnumbered_response
    | _ => Responded rejected_response
    end.

Definition garbled_created_response : Response :=
  mkResponse 201 "<html>created</html>" None.

Definition net_garbled_created : Trace -> Request -> HttpResult :=
  fun _ req =>
    match method req with
    | GET => Responded none_response
    | _ => Responded garbled_created_response
    end.

(** A service on which the open request is number 7 at the first find
    and number 8 from then on. *)
Definition open_request_8 : json :=
  JDict [("number", JInt 8); ("state", JStr "open")].

Definition found_8_response : Response :=
  mkResponse 200 "[{...}]" (Some (JList [open_request_8])).

Definition net_renumbered : Trace -> Request -> HttpResult :=
  fun tr req =>
    match method req, requests_of tr with
    | GET, [] => Responded found_response
    | GET, _ => Responded found_8_response
    | _, _ => Responded rejected_response
    end.

(** A service that accepts every write and answers it with the request
    as JSON. *)
Definition created_response : Response :=
  mkResponse 201 "{...}" (Some open_request_7).

Definition updated_response : Response :=
  mkResponse 200 "{...}" (Some open_request_7).

Definition net_accepting (listing : Response)
  : Trace -> Request -> HttpResult :=
  fun _ req =>
    match method req with
    | GET => Responded listing
    | POST => Responded created_response
    | PATCH => Responded updated_response
    end.

(** * Properties *)

(** ** The string primitives on examples *)

Example splitlines_ab :
  PyStr.splitlines ("a" ++ PyStr.nl ++ "b") = ["a"; "b"].
Proof. reflexivity. Qed.

Example splitlines_empty : PyStr.splitlines EmptyString = [].
Proof. reflexivity. Qed.

Example splitlines_trailing :
  PyStr.splitlines ("a" ++ PyStr.nl ++ PyStr.nl) = ["a"; EmptyString].
Proof. reflexivity. Qed.

Example splitlines_crlf :
  PyStr.splitlines ("a" ++ String PyStr.cr PyStr.nl ++ "b" ++ String PyStr.cr "c")
  = ["a"; "b"; "c"].
Proof. reflexivity. Qed.

Example title_key :
  PyStr.replace_char "_" " " (PyStr.title "new_fILE 1ab") = "New File 1Ab".
Proof. reflexivity. Qed.

Example title_latin1 :
  PyStr.title (String (ascii_of_nat 233) "t" ++ String (ascii_of_nat 233) EmptyString)
  = String (ascii_of_nat 201) "t" ++ String (ascii_of_nat 233) EmptyString
  /\ PyStr.title (String (ascii_of_nat 223) EmptyString) = "Ss"
  /\ PyStr.title_in_alphabet (String (ascii_of_nat 255) EmptyString) = false.
Proof. repeat split. Qed.

Example str_int_examples :
  (PyStr.str_int 42, PyStr.str_int 0, PyStr.str_int (-7)) = ("42", "0", "-7").
Proof. reflexivity. Qed.

(** ** Traces only grow *)


Lemma extends_ret {A} (a : A) : extends (ret a).
Proof. intros tr. exists []. simpl. now rewrite app_nil_r. Qed.

Lemma extends_raise {A} (e : exn) : extends (@raise Trace A e).
Proof. intros tr. exists []. simpl. now rewrite app_nil_r. Qed.

Lemma extends_emit (e : Event) : extends (emit e).
Proof. intros tr. now exists [e]. Qed.

Lemma extends_bind {A B} (c : Eff A) (k : A -> Eff B) :
  extends c -> (forall a, extends (k a)) -> extends (bind c k).
Proof.
  intros Hc Hk tr. unfold bind.
  destruct (Hc tr) as [m1 E1].
  destruct (c tr) as [[a | e] tr1]; simpl in *; subst tr1.
  - destruct (Hk a (tr ++ m1)%list) as [m2 E2].
    exists (m1 ++ m2)%list. now rewrite E2, app_assoc.
  - now exists m1.
Qed.

Lemma extends_response_json (r : Response) : extends (response_json r).
Proof.
  unfold response_json.
  destruct (json_body r); [apply extends_ret | apply extends_raise].
Qed.

Lemma extends_subscript_0 (v : json) : extends (subscript_0 v).
Proof.
  destruct v as [| | | [|c s] | [|x l] |];
    simpl; try apply extends_ret; apply extends_raise.
Qed.

Lemma extends_subscript_key (v : json) (key : string) :
  extends (subscript_key v key).
Proof.
  destruct v; simpl; try apply extends_raise.
  destruct (dict_get entries key); [apply extends_ret | apply extends_raise].
Qed.

Create HintDb trace.
#[local] Hint Resolve extends_ret extends_raise extends_emit
  extends_response_json extends_subscript_0 extends_subscript_key : trace.

Ltac extends_step :=
  first
    [ apply extends_bind; [ | intros ? ]
    | match goal with
      | |- extends (if ?b then _ else _) => destruct b
      end
    | solve [ auto with trace ]
    | unfold log_debug; solve [ auto with trace ]
    | unfold commit; solve [ auto with trace ] ].

Section RemoteFacts.

Variable net : Trace -> Request -> HttpResult.
Variable self : GithubPublishService.Config.

Local Abbreviation send := (GithubPublishService.send net).
Local Abbreviation _find_existing_pr := (GithubPublishService._find_existing_pr net self).
Local Abbreviation _create_pr := (GithubPublishService._create_pr net self).
Local Abbreviation _update := (GithubPublishService._update net self).
Local Abbreviation _publish := (GithubPublishService._publish net self).
Local Abbreviation find_request := (GithubPublishService.find_request self).

Lemma extends_send (req : Request) : extends (send req).
Proof.
  intros tr. unfold GithubPublishService.send.
  exists [EvRequest req (net tr req)]. now destruct (net tr req).
Qed.

Lemma extends_find : extends _find_existing_pr.
Proof.
  unfold GithubPublishService._find_existing_pr.
  apply extends_bind; [apply extends_send | intros r].
  repeat extends_step.
Qed.

Lemma extends_create (title body : string) : extends (_create_pr title body).
Proof.
  unfold GithubPublishService._create_pr.
  apply extends_bind; [apply extends_send | intros r].
  repeat extends_step.
Qed.

Lemma extends_update (title body : string) : extends (_update title body).
Proof.
  unfold GithubPublishService._update.
  apply extends_bind; [apply extends_find | intros pr].
  destruct (negb (truthy pr)); [repeat extends_step | ].
  apply extends_bind; [auto with trace | intros n].
  apply extends_bind; [apply extends_send | intros r].
  repeat extends_step.
Qed.

Lemma extends_publish (title body : string) : extends (_publish title body).
Proof.
  unfold GithubPublishService._publish.
  apply extends_bind; [apply extends_find | intros pr].
  destruct (truthy pr); [apply extends_update | apply extends_create].
Qed.

Lemma bind_send_first {A} (req : Request) (k : Response -> Eff A) (tr : Trace) :
  (forall r, extends (k r)) ->
  exists more,
    snd (bind (send req) k tr)
    = (tr ++ EvRequest req (net tr req) :: more)%list.
Proof.
  intros Hk. unfold bind, GithubPublishService.send.
  destruct (net tr req) as [r |].
  - destruct (Hk r (tr ++ [EvRequest req (Responded r)])%list) as [more Hm].
    exists more. rewrite Hm. now rewrite <- app_assoc.
  - now exists [].
Qed.

(** Every find starts by sending the find request. *)
Lemma find_sends_first (tr : Trace) :
  exists more,
    snd (_find_existing_pr tr)
    = (tr ++ EvRequest find_request (net tr find_request) :: more)%list.
Proof.
  unfold GithubPublishService._find_existing_pr.
  apply bind_send_first. intros r. repeat extends_step.
Qed.

(** Every publish starts by sending the find request. *)
Lemma publish_sends_find_first (title body : string) (tr : Trace) :
  exists more,
    snd (_publish title body tr)
    = (tr ++ EvRequest find_request (net tr find_request) :: more)%list.
Proof.
  unfold GithubPublishService._publish, bind.
  destruct (find_sends_first tr) as [m1 E1].
  destruct (_find_existing_pr tr) as [[pr | e] tr1]; simpl in E1; subst tr1.
  - assert (E : extends (if truthy pr then _update title body
                         else _create_pr title body))
      by (destruct (truthy pr); [apply extends_update | apply extends_create]).
    destruct (E (tr ++ EvRequest find_request (net tr find_request) :: m1)%list)
      as [m2 E2].
    exists (m1 ++ m2)%list. cbv beta.
    etransitivity; [exact E2 | now rewrite <- app_assoc].
  - now exists m1.
Qed.

End RemoteFacts.

(** ** The accumulator's state under its entry points *)

Section AccumulatorFacts.

Variable _publish : string -> string -> Eff unit.

Local Abbreviation update := (PublishService.update _publish).
Local Abbreviation finalize := (PublishService.finalize _publish).
Local Abbreviation set_pr_description :=
  (PublishService.set_pr_description _publish).
Local Abbreviation publish_update := (PublishService.publish_update _publish).
Local Abbreviation publish_call := (PublishService.publish_call _publish).
Local Abbreviation call := (PublishService.call _publish).
Local Abbreviation run := (PublishService.run _publish).

(** Pushing the report reads the object and leaves it as it is; the trace
    afterwards is the one [_publish] leaves. *)
Lemma update_unfold (st : PublishService.t * Trace) :
  update st =
  (fst (_publish (PullRequestDescription.title (PublishService.pr_desc (fst st)))
                 (PublishService._build_body (fst st) false) (snd st)),
   (fst st,
    snd (_publish (PullRequestDescription.title (PublishService.pr_desc (fst st)))
                  (PublishService._build_body (fst st) false) (snd st)))).
Proof.
  unfold PublishService.update, bind, PublishService.get_self,
    PublishService.lift.
  destruct st as [self tr]; simpl.
  now destruct (_publish _ _ tr) as [[u | e] tr'].
Qed.

Lemma finalize_unfold (st : PublishService.t * Trace) :
  finalize st =
  (fst (_publish (PullRequestDescription.title (PublishService.pr_desc (fst st)))
                 (PublishService._build_body (fst st) true) (snd st)),
   (fst st,
    snd (_publish (PullRequestDescription.title (PublishService.pr_desc (fst st)))
                  (PublishService._build_body (fst st) true) (snd st)))).
Proof.
  unfold PublishService.finalize, bind, PublishService.get_self,
    PublishService.lift.
  destruct st as [self tr]; simpl.
  now destruct (_publish _ _ tr) as [[u | e] tr'].
Qed.

Lemma publish_update_unfold (text : string) (st : PublishService.t * Trace) :
  publish_update text st =
  update (PublishService.mk
            (PublishService.issue (fst st))
            (PublishService.pr_desc (fst st))
            (PublishService.progress_updates (fst st) ++ [text])%list,
          snd st).
Proof. reflexivity. Qed.

Lemma set_pr_description_unfold (pr : PullRequestDescription.t)
    (st : PublishService.t * Trace) :
  set_pr_description pr st =
  update (PublishService.mk
            (PublishService.issue (fst st))
            pr
            (PublishService.progress_updates (fst st)),
          snd st).
Proof. reflexivity. Qed.

(** No entry point removes or rewrites a fragment: the list before the
    call is a prefix of the list after it. *)
Lemma call_progress_prefix (op : PublishService.Op)
    (st : PublishService.t * Trace) :
  exists more,
    PublishService.progress_updates (fst (snd (call op st)))
    = (PublishService.progress_updates (fst st) ++ more)%list.
Proof.
  destruct op as [pr | txt | summary dopen kwargs |]; simpl.
  - rewrite set_pr_description_unfold, update_unfold. simpl.
    exists []. now rewrite app_nil_r.
  - rewrite publish_update_unfold, update_unfold. simpl. now exists [txt].
  - unfold PublishService.publish_call.
    rewrite publish_update_unfold, update_unfold. simpl.
    now exists [PublishService.progress_str summary dopen kwargs].
  - rewrite finalize_unfold. simpl. exists []. now rewrite app_nil_r.
Qed.

Lemma run_progress_prefix (ops : list PublishService.Op) :
  forall st : PublishService.t * Trace,
  exists more,
    PublishService.progress_updates (fst (snd (run ops st)))
    = (PublishService.progress_updates (fst st) ++ more)%list.
Proof.
  induction ops as [| op ops IH]; intros st; simpl.
  - exists []. now rewrite app_nil_r.
  - destruct (call_progress_prefix op st) as [m1 E1].
    destruct (call op st) as [r st1]. simpl in E1.
    destruct (IH st1) as [m2 E2].
    destruct (run ops st1) as [rs st2]. simpl in *.
    exists (m1 ++ m2)%list. now rewrite E2, E1, app_assoc.
Qed.

Lemma run_publish_updates (texts : list string) :
  forall st : PublishService.t * Trace,
    PublishService.progress_updates
      (fst (snd (run (map PublishService.OpPublishUpdate texts) st)))
    = (PublishService.progress_updates (fst st) ++ texts)%list.
Proof.
  induction texts as [| text texts IH]; intros st; simpl.
  - now rewrite app_nil_r.
  - pose proof (publish_update_unfold text st) as E.
    destruct (publish_update text st) as [r st1] eqn:E1.
    specialize (IH st1).
    destruct (run (map PublishService.OpPublishUpdate texts) st1) as [rs st2].
    simpl in *. rewrite IH.
    rewrite update_unfold in E. injection E as _ ->. simpl.
    now rewrite <- app_assoc.
Qed.

(** Each entry point ends in one [_publish] on the trace it was given. *)
Lemma call_trace (op : PublishService.Op) (st : PublishService.t * Trace) :
  exists title body,
    snd (snd (call op st)) = snd (_publish title body (snd st)).
Proof.
  destruct op; simpl.
  - rewrite set_pr_description_unfold, update_unfold. simpl. eauto.
  - rewrite publish_update_unfold, update_unfold. simpl. eauto.
  - unfold PublishService.publish_call.
    rewrite publish_update_unfold, update_unfold. simpl. eauto.
  - rewrite finalize_unfold. simpl. eauto.
Qed.

End AccumulatorFacts.

(** ** Initialisation *)

Lemma init_result (issue : Issue.t) (tr : Trace) :
  exists acc,
    PublishService.__init__ issue tr
    = (Ok acc, (tr ++ [EvCommit PublishService.empty_commit])%list)
    /\ PublishService.progress_updates acc = []
    /\ PublishService.issue acc = issue.
Proof. eexists. repeat split. Qed.

Lemma requests_of_app (tr more : Trace) :
  requests_of (tr ++ more)%list = (requests_of tr ++ requests_of more)%list.
Proof.
  induction tr as [| e tr IH]; [reflexivity |].
  destruct e; simpl; now rewrite IH.
Qed.


(** C7: initialising with issue number 42 and title "Fix null pointer"
    yields a description titled "Fix #42: Fix null pointer" with an empty
    body and one commit whose message is "[empty] Running...", and the
    Commit Recorder's commit is called exactly once, with that placeholder. *)
Theorem initialize_issue_42 :
  forall tr : Trace,
    let issue := Issue.mk 42 "Fix null pointer" in
    let placeholder := CommitPlan.mk "[empty] Running..." in
    PublishService.__init__ issue tr
    = (Ok (PublishService.mk issue
             (PullRequestDescription.mk "Fix #42: Fix null pointer" EmptyString
                [placeholder])
             []),
       (tr ++ [EvCommit placeholder])%list)
    /\ commits_of (snd (PublishService.__init__ issue [])) = [placeholder]
    /\ List.length
         (PullRequestDescription.commits
            (PublishService.pr_desc
               (PublishService.mk issue
                  (PullRequestDescription.mk "Fix #42: Fix null pointer" EmptyString
                     [placeholder]) []))) = 1.
Proof. intros tr. repeat split. Qed.

(** C9: constructing the accumulator has one effect, the placeholder
    commit, and sends no request to the remote service; the first request
    is sent by the first entry point called afterwards, whichever it is,
    and is the find request. *)
Theorem construction_only_commits :
  forall (net : Trace -> Request -> HttpResult)
         (self : GithubPublishService.Config)
         (issue : Issue.t) (tr : Trace),
  exists acc,
    GithubPublishService.__init__ issue tr
    = (Ok acc, (tr ++ [EvCommit PublishService.empty_commit])%list)
    /\ requests_of (snd (GithubPublishService.__init__ issue tr))
       = requests_of tr
    /\ forall op : PublishService.Op,
       exists more,
         snd (snd (PublishService.call (GithubPublishService._publish net self)
                     op (acc, (tr ++ [EvCommit PublishService.empty_commit])%list)))
         = ((tr ++ [EvCommit PublishService.empty_commit])
              ++ EvRequest (GithubPublishService.find_request self)
                   (net (tr ++ [EvCommit PublishService.empty_commit])%list
                        (GithubPublishService.find_request self))
                 :: more)%list.
Proof.
  intros net self issue tr.
  destruct (init_result issue tr) as (acc & E & _ & _).
  exists acc. unfold GithubPublishService.__init__. rewrite E.
  split; [reflexivity | split].
  - simpl. rewrite requests_of_app. simpl. now rewrite app_nil_r.
  - intros op.
    destruct (call_trace (GithubPublishService._publish net self) op
                (acc, (tr ++ [EvCommit PublishService.empty_commit])%list))
      as (title & body & Et).
    rewrite Et. apply publish_sends_find_first.
Qed.

(** ** Frame properties and append-only fragments *)

(** C10: [publish_update] appends one element to the fragment list and
    leaves the description and the issue as they were;
    [set_pr_description] replaces the description and leaves the fragment
    list and the issue as they were. *)
Theorem mutators_touch_own_field :
  forall (_publish : string -> string -> Eff unit)
         (self : PublishService.t) (tr : Trace)
         (txt : string) (pr : PullRequestDescription.t),
    let after_update :=
      fst (snd (PublishService.publish_update _publish txt (self, tr))) in
    let after_set :=
      fst (snd (PublishService.set_pr_description _publish pr (self, tr))) in
    (PublishService.progress_updates after_update
       = (PublishService.progress_updates self ++ [txt])%list
     /\ PublishService.pr_desc after_update = PublishService.pr_desc self
     /\ PublishService.issue after_update = PublishService.issue self)
    /\
    (PublishService.pr_desc after_set = pr
     /\ PublishService.progress_updates after_set
        = PublishService.progress_updates self
     /\ PublishService.issue after_set = PublishService.issue self).
Proof.
  intros _publish self tr txt pr. cbv zeta.
  rewrite publish_update_unfold, set_pr_description_unfold.
  rewrite !update_unfold. simpl. repeat split.
Qed.

(** C6: after [n] calls of [publish_update] on a new accumulator the
    fragment list is the list of the [n] texts in call order, and whatever
    is called afterwards keeps those fragments, unchanged, at the front of
    the list. *)
Theorem fragments_append_only :
  forall (_publish : string -> string -> Eff unit)
         (issue : Issue.t) (tr : Trace)
         (texts : list string) (later : list PublishService.Op),
    match PublishService.__init__ issue tr with
    | (Ok acc, tr0) =>
        let st := snd (PublishService.run _publish
                         (map PublishService.OpPublishUpdate texts) (acc, tr0)) in
        PublishService.progress_updates (fst st) = texts
        /\ List.length (PublishService.progress_updates (fst st))
           = List.length texts
        /\ exists more,
             PublishService.progress_updates
               (fst (snd (PublishService.run _publish later st)))
             = (texts ++ more)%list
    | (Raise _, _) => False
    end.
Proof.
  intros _publish issue tr texts later.
  destruct (init_result issue tr) as (acc & E & Hnil & _).
  rewrite E. cbv zeta.
  pose proof (run_publish_updates _publish texts
                (acc, (tr ++ [EvCommit PublishService.empty_commit])%list)) as Ht.
  simpl fst in Ht at 2. rewrite Hnil in Ht. simpl app in Ht.
  split; [exact Ht | split; [f_equal; exact Ht |]].
  destruct (run_progress_prefix _publish later
    (snd (PublishService.run _publish
            (map PublishService.OpPublishUpdate texts)
            (acc, (tr ++ [EvCommit PublishService.empty_commit])%list))))
    as [more Hm].
  exists more. etransitivity; [exact Hm | f_equal; exact Ht].
Qed.

(** ** Counting occurrences of a phrase *)


Lemma append_nil_r (s : string) : s ++ EmptyString = s.
Proof. induction s as [| c s IH]; simpl; now rewrite ?IH. Qed.

Lemma append_assoc (a b c : string) : (a ++ b) ++ c = a ++ (b ++ c).
Proof. induction a as [| x a IH]; simpl; now rewrite ?IH. Qed.

Lemma prefix_app_sep (p x y : string) (c : ascii) :
  mem_char c p = false ->
  String.prefix p (x ++ String c y) = String.prefix p x.
Proof.
  revert p. induction x as [| b x IH]; intros p Hc.
  - destruct p as [| a p]; [reflexivity |]. simpl in *.
    destruct (ascii_dec a c) as [-> | _]; [| reflexivity].
    now rewrite Ascii.eqb_refl in Hc.
  - destruct p as [| a p]; [reflexivity |]. simpl in *.
    destruct (ascii_dec a b); [| reflexivity].
    apply IH. now apply orb_false_iff in Hc.
Qed.

Section Occurrences.

Variable p : string.
Hypothesis p_not_empty : p <> EmptyString.

Lemma occurrences_empty : PyStr.occurrences p EmptyString = 0.
Proof. destruct p; [congruence | reflexivity]. Qed.

(** An occurrence does not reach across a character that is not in the
    phrase. *)
Lemma occurrences_app_sep (x y : string) (c : ascii) :
  mem_char c p = false ->
  PyStr.occurrences p (x ++ String c y)
  = PyStr.occurrences p x + PyStr.occurrences p y.
Proof.
  intros Hc. induction x as [| b x IH].
  - change (EmptyString ++ String c y) with (String c y).
    rewrite occurrences_empty.
    change (PyStr.occurrences p (String c y))
      with ((if String.prefix p (String c y) then 1 else 0)
            + PyStr.occurrences p y).
    change (String c y) with (EmptyString ++ String c y) at 1.
    rewrite prefix_app_sep by assumption.
    destruct p; [congruence | reflexivity].
  - change (PyStr.occurrences p (String b x ++ String c y))
      with ((if String.prefix p (String b x ++ String c y) then 1 else 0)
            + PyStr.occurrences p (x ++ String c y)).
    change (PyStr.occurrences p (String b x))
      with ((if String.prefix p (String b x) then 1 else 0)
            + PyStr.occurrences p x).
    rewrite prefix_app_sep, IH by assumption. lia.
Qed.

Lemma occurrences_cons_sep (y : string) (c : ascii) :
  mem_char c p = false ->
  PyStr.occurrences p (String c y) = PyStr.occurrences p y.
Proof.
  intros Hc. change (String c y) with (EmptyString ++ String c y).
  now rewrite occurrences_app_sep, occurrences_empty.
Qed.


Lemma occurrences_app_outside (x z : string) :
  starts_outside p z ->
  PyStr.occurrences p (x ++ z) = PyStr.occurrences p x + PyStr.occurrences p z.
Proof.
  intros [-> | (c & z' & -> & Hc)].
  - rewrite append_nil_r, occurrences_empty. lia.
  - now rewrite occurrences_app_sep, occurrences_cons_sep.
Qed.

(** A text without the first character of the phrase has no occurrence. *)
Lemma occurrences_without_first (a : ascii) (p' s : string) :
  p = String a p' -> mem_char a s = false -> PyStr.occurrences p s = 0.
Proof.
  intros ->. induction s as [| b s IH]; intros Hs; [reflexivity |].
  simpl in Hs. apply orb_false_iff in Hs as [Hab Hs].
  change (PyStr.occurrences (String a p') (String b s))
    with ((if String.prefix (String a p') (String b s) then 1 else 0)
          + PyStr.occurrences (String a p') s).
  rewrite (IH Hs). simpl.
  destruct (ascii_dec a b) as [-> | _]; [| reflexivity].
  now rewrite Ascii.eqb_refl in Hab.
Qed.

End Occurrences.

Arguments occurrences_app_sep {p} _ _ _ _ _.
Arguments occurrences_cons_sep {p} _ _ _ _.
Arguments occurrences_app_outside {p} _ _ _ _.
Arguments occurrences_without_first {p} _ {a p' s} _ _.


Lemma mem_char_string_of_uint (c : ascii) (d : Decimal.uint) :
  is_digit_or_minus c = false ->
  mem_char c (NilEmpty.string_of_uint d) = false.
Proof.
  intros Hc. induction d; simpl; rewrite ?IHd; try reflexivity;
    rewrite orb_false_r; apply Ascii.eqb_neq; intros ->; discriminate Hc.
Qed.

Lemma mem_char_str_int (c : ascii) (n : Z) :
  is_digit_or_minus c = false -> mem_char c (PyStr.str_int n) = false.
Proof.
  intros Hc. unfold PyStr.str_int, NilZero.string_of_int, NilZero.string_of_uint.
  assert (H0 : mem_char c "0" = false).
  { simpl. rewrite orb_false_r. apply Ascii.eqb_neq. intros ->. discriminate Hc. }
  assert (Hm : Ascii.eqb c "-" = false).
  { apply Ascii.eqb_neq. intros ->. discriminate Hc. }
  destruct (Z.to_int n) as [d | d].
  - destruct d; try exact H0; now apply mem_char_string_of_uint.
  - simpl. rewrite Hm. simpl.
    destruct d; try exact H0; now apply mem_char_string_of_uint.
Qed.

(** ** The composed body *)


Lemma fold_left_fragments (updates : list string) :
  forall init : string,
    fold_left (fun body update => body ++ PyStr.nl ++ update) updates init
    = init ++ fragments_text updates.
Proof.
  induction updates as [| u us IH]; intros init; simpl.
  - now rewrite append_nil_r.
  - rewrite IH. now rewrite !append_assoc.
Qed.

Lemma build_progress_updates_nonempty (self : PublishService.t) :
  PublishService.progress_updates self <> [] ->
  PublishService._build_progress_updates self
  = "# Progress updates" ++ PyStr.nl
      ++ fragments_text (PublishService.progress_updates self).
Proof.
  intros Hne. unfold PublishService._build_progress_updates.
  destruct (PublishService.progress_updates self) as [| u us];
    [congruence |].
  rewrite fold_left_fragments. now rewrite !append_assoc.
Qed.


Lemma phrase_not_empty : phrase <> EmptyString.
Proof. discriminate. Qed.

Lemma fragments_start_outside (updates : list string) (z : string) :
  starts_outside phrase z ->
  starts_outside phrase (fragments_text updates ++ z).
Proof.
  intros Hz. destruct updates as [| u us]; [exact Hz |].
  right. exists PyStr.lf, (u ++ fragments_text us ++ z). split.
  - simpl. now rewrite append_assoc.
  - reflexivity.
Qed.

(** Fragments free of the phrase add no occurrence, whatever follows them. *)
Lemma occurrences_fragments (updates : list string) (z : string) :
  Forall (fun u => PyStr.occurrences phrase u = 0) updates ->
  starts_outside phrase z ->
  PyStr.occurrences phrase (fragments_text updates ++ z)
  = PyStr.occurrences phrase z.
Proof.
  intros Hall Hz. induction Hall as [| u us Hu Hus IH]; [reflexivity |].
  change (fragments_text (u :: us) ++ z)
    with (String PyStr.lf ((u ++ fragments_text us) ++ z)).
  rewrite (occurrences_cons_sep phrase_not_empty (p := phrase)) by reflexivity.
  rewrite append_assoc.
  rewrite (occurrences_app_outside phrase_not_empty (p := phrase))
    by now apply fragments_start_outside.
  rewrite Hu, IH. reflexivity.
Qed.

Lemma occurrences_str_int (n : Z) :
  PyStr.occurrences phrase (PyStr.str_int n) = 0.
Proof.
  apply (occurrences_without_first phrase_not_empty (p := phrase) (a := "C")
           (p' := "lick to see progress updates")); [reflexivity |].
  now apply mem_char_str_int.
Qed.

(** C5, as the code has it: when neither the description body nor any
    fragment contains "Click to see progress updates", the body composed
    from a non-empty fragment list contains the phrase exactly once with
    [finalize] set and not at all without it. *)
Theorem finalize_wraps_once :
  forall self : PublishService.t,
    PublishService.progress_updates self <> [] ->
    PyStr.occurrences phrase
      (PullRequestDescription.body (PublishService.pr_desc self)) = 0 ->
    Forall (fun u => PyStr.occurrences phrase u = 0)
      (PublishService.progress_updates self) ->
    PyStr.occurrences phrase (PublishService._build_body self true) = 1
    /\ PyStr.occurrences phrase (PublishService._build_body self false) = 0.
Proof.
  intros self Hne Hbody Hfrags.
  unfold PublishService._build_body.
  rewrite (build_progress_updates_nonempty self Hne).
  set (N := PyStr.str_int (Issue.number (PublishService.issue self))).
  set (B := PullRequestDescription.body (PublishService.pr_desc self)) in *.
  set (F := fragments_text (PublishService.progress_updates self)).
  pose proof (occurrences_str_int (Issue.number (PublishService.issue self)))
    as HN. fold N in HN.
  pose proof (occurrences_app_sep phrase_not_empty (p := phrase)) as Sep.
  pose proof (occurrences_cons_sep phrase_not_empty (p := phrase)) as Cons.
  split.
  - (* with the wrapper *)
    match goal with
    | |- PyStr.occurrences _ ?b = _ =>
        replace b
          with ("Fixes " ++ String "#" (N ++ String PyStr.lf (String PyStr.lf
              (B ++ String "<" ("details>" ++ String PyStr.lf
                 ("  <summary>Click to see progress updates</summary>"
                  ++ String PyStr.lf (String PyStr.lf
                       ("  " ++ String "#" (" Progress updates"
                          ++ String PyStr.lf
                               (F ++ PyStr.nl ++ "</details>" ++ PyStr.nl))))))))))
    end.
    2:{ simpl. rewrite ?append_assoc. simpl. rewrite ?append_assoc. reflexivity. }
    rewrite (Sep "Fixes " _ "#"%char) by reflexivity.
    rewrite (Sep N _ PyStr.lf) by reflexivity.
    rewrite (Cons _ PyStr.lf) by reflexivity.
    rewrite (Sep B _ "<"%char) by reflexivity.
    rewrite (Sep "details>" _ PyStr.lf) by reflexivity.
    rewrite (Sep "  <summary>Click to see progress updates</summary>" _ PyStr.lf)
      by reflexivity.
    rewrite (Cons _ PyStr.lf) by reflexivity.
    rewrite (Sep "  " _ "#"%char) by reflexivity.
    rewrite (Sep " Progress updates" _ PyStr.lf) by reflexivity.
    unfold F. rewrite occurrences_fragments;
      [| assumption | right; eexists _, _; split; reflexivity].
    rewrite HN, Hbody. reflexivity.
  - (* without the wrapper *)
    match goal with
    | |- PyStr.occurrences _ ?b = _ =>
        replace b
          with ("Fixes " ++ String "#" (N ++ String PyStr.lf (String PyStr.lf
              (B ++ String "#" (" Progress updates"
                                ++ String PyStr.lf (F ++ EmptyString))))))
    end.
    2:{ simpl. rewrite ?append_assoc. simpl. rewrite ?append_assoc.
        now rewrite append_nil_r. }
    rewrite (Sep "Fixes " _ "#"%char) by reflexivity.
    rewrite (Sep N _ PyStr.lf) by reflexivity.
    rewrite (Cons _ PyStr.lf) by reflexivity.
    rewrite (Sep B _ "#"%char) by reflexivity.
    rewrite (Sep " Progress updates" _ PyStr.lf) by reflexivity.
    unfold F. rewrite occurrences_fragments; [| assumption | now left].
    rewrite HN, Hbody. reflexivity.
Qed.


Lemma finalize_wraps_once_witness :
  let self := example_accumulator "Adds a guard." ["first"; "second"] in
  PublishService.progress_updates self <> []
  /\ PyStr.occurrences phrase (PublishService._build_body self true) = 1
  /\ PyStr.occurrences phrase (PublishService._build_body self false) = 0.
Proof.
  split; [discriminate |].
  apply (finalize_wraps_once
           (example_accumulator "Adds a guard." ["first"; "second"]));
    [discriminate | reflexivity | repeat constructor].
Defined.

(** C5 as stated fails: a fragment may itself contain the phrase, and the
    composer copies fragments as they are. *)
Lemma finalize_wrapping_counterexample :
  ~ (forall self : PublishService.t,
       PublishService.progress_updates self <> [] ->
       PyStr.occurrences "Click to see progress updates"
         (PublishService._build_body self true) = 1
       /\ PyStr.occurrences "Click to see progress updates"
            (PublishService._build_body self false) = 0).
Proof.
  intros H.
  specialize (H (example_accumulator EmptyString ["Click to see progress updates"])).
  destruct H as [_ H]; [discriminate |].
  vm_compute in H. discriminate H.
Qed.

(** Without fragments and without [finalize] the body is the "Fixes"
    line, a blank line and the description body. *)
Lemma build_body_no_fragments (self : PublishService.t) :
  PublishService.progress_updates self = [] ->
  PublishService._build_body self false
  = "Fixes #" ++ PyStr.str_int (Issue.number (PublishService.issue self))
      ++ PyStr.nl ++ PyStr.nl
      ++ PullRequestDescription.body (PublishService.pr_desc self).
Proof.
  intros Hnil.
  unfold PublishService._build_body, PublishService._build_progress_updates.
  rewrite Hnil. rewrite append_nil_r. simpl. now rewrite !append_assoc.
Qed.

(** C2 at [finalize = True]: with no fragment at all, the body still ends
    in the "Click to see progress updates" block, around an empty
    progress text, so it is not the "Fixes" line, blank line and
    description body alone. *)
Theorem empty_fragments_finalize_body :
  let self := example_accumulator "Adds a guard." [] in
  PublishService._build_body self true
  = "Fixes #42" ++ PyStr.nl ++ PyStr.nl ++ "Adds a guard."
      ++ "<details>" ++ PyStr.nl
      ++ "  <summary>Click to see progress updates</summary>" ++ PyStr.nl
      ++ PyStr.nl
      ++ "  " ++ PyStr.nl
      ++ "</details>" ++ PyStr.nl
  /\ PublishService._build_body self true
     <> "Fixes #42" ++ PyStr.nl ++ PyStr.nl ++ "Adds a guard."
  /\ PublishService._build_body self false
     = "Fixes #42" ++ PyStr.nl ++ PyStr.nl ++ "Adds a guard.".
Proof. repeat split. vm_compute. discriminate. Qed.

(** ** Quoting the lines of a section *)


Lemma no_linebreak_app (a b : string) :
  no_linebreak (a ++ b) = (no_linebreak a && no_linebreak b)%bool.
Proof.
  induction a as [| c a IH]; simpl; [reflexivity |].
  now rewrite IH, andb_assoc.
Qed.

Lemma cr_is_linebreak (c : ascii) :
  Ascii.eqb c PyStr.cr = true -> PyStr.is_linebreak c = true.
Proof. intros H. apply Ascii.eqb_eq in H. now subst c. Qed.

(** Every line that [splitlines] returns is free of line boundaries. *)
Lemma splitlines_from_no_linebreak (s : string) :
  (forall cur, no_linebreak cur = true ->
     Forall (fun l => no_linebreak l = true) (PyStr.splitlines_from cur s))
  /\ (forall c cur, no_linebreak cur = true ->
        Forall (fun l => no_linebreak l = true)
          (PyStr.splitlines_from cur (String c s))).
Proof.
  induction s as [| c' s [IH1 IH2]].
  - assert (H0 : forall cur, no_linebreak cur = true ->
              Forall (fun l => no_linebreak l = true)
                (PyStr.splitlines_from cur EmptyString)).
    { intros cur Hcur. simpl. destruct cur; [constructor |].
      constructor; [assumption | constructor]. }
    split; [exact H0 |].
    intros c cur Hcur. simpl.
    destruct (Ascii.eqb c PyStr.cr); [constructor; [assumption | constructor] |].
    destruct (PyStr.is_linebreak c) eqn:Hlb;
      [constructor; [assumption | constructor] |].
    apply H0. rewrite no_linebreak_app, Hcur. simpl. now rewrite Hlb.
  - split; [exact (fun cur => IH2 c' cur) |].
    intros c cur Hcur.
    change (PyStr.splitlines_from cur (String c (String c' s)))
      with (if Ascii.eqb c PyStr.cr then
              if Ascii.eqb c' PyStr.lf
              then cur :: PyStr.splitlines_from EmptyString s
              else cur :: PyStr.splitlines_from EmptyString (String c' s)
            else if PyStr.is_linebreak c
                 then cur :: PyStr.splitlines_from EmptyString (String c' s)
                 else PyStr.splitlines_from (cur ++ String c EmptyString)
                        (String c' s)).
    destruct (Ascii.eqb c PyStr.cr).
    + destruct (Ascii.eqb c' PyStr.lf); constructor; auto.
    + destruct (PyStr.is_linebreak c) eqn:Hlb; [constructor; auto |].
      apply IH2. rewrite no_linebreak_app, Hcur. simpl. now rewrite Hlb.
Qed.

Lemma splitlines_no_linebreak (s : string) :
  Forall (fun l => no_linebreak l = true) (PyStr.splitlines s).
Proof. now apply (proj1 (splitlines_from_no_linebreak s)). Qed.

(** A text without line boundaries is one line, unless it is empty. *)
Lemma splitlines_from_one_line (l : string) :
  forall cur,
    no_linebreak l = true ->
    PyStr.splitlines_from cur l
    = match cur ++ l with
      | EmptyString => []
      | line => [line]
      end.
Proof.
  induction l as [| c l IH]; intros cur Hl.
  - simpl. rewrite append_nil_r. now destruct cur.
  - simpl in Hl. apply andb_true_iff in Hl as [Hc Hl].
    apply negb_true_iff in Hc. simpl.
    destruct (Ascii.eqb c PyStr.cr) eqn:Hcr.
    { apply cr_is_linebreak in Hcr. congruence. }
    rewrite Hc, (IH _ Hl), append_assoc. reflexivity.
Qed.

(** A line followed by a line feed is split off. *)
Lemma splitlines_from_line_feed (l rest : string) :
  forall cur,
    no_linebreak l = true ->
    PyStr.splitlines_from cur (l ++ String PyStr.lf rest)
    = (cur ++ l) :: PyStr.splitlines_from EmptyString rest.
Proof.
  induction l as [| c l IH]; intros cur Hl.
  - simpl. now rewrite append_nil_r.
  - simpl in Hl. apply andb_true_iff in Hl as [Hc Hl].
    apply negb_true_iff in Hc. simpl.
    destruct (Ascii.eqb c PyStr.cr) eqn:Hcr.
    { apply cr_is_linebreak in Hcr. congruence. }
    rewrite Hc, (IH _ Hl), append_assoc. reflexivity.
Qed.

(** Joining non-empty lines with line feeds and splitting again gives the
    lines back. *)
Lemma splitlines_join (lines : list string) :
  Forall (fun l => no_linebreak l = true /\ l <> EmptyString) lines ->
  PyStr.splitlines (PyStr.join PyStr.nl lines) = lines.
Proof.
  unfold PyStr.splitlines, PyStr.join.
  induction 1 as [| l ls [Hl Hne] Hls IH]; [reflexivity |].
  destruct ls as [| l2 ls].
  - simpl. rewrite (splitlines_from_one_line _ EmptyString Hl). simpl.
    destruct l; [congruence | reflexivity].
  - change (String.concat PyStr.nl (l :: l2 :: ls))
      with (l ++ String PyStr.lf (String.concat PyStr.nl (l2 :: ls))).
    rewrite (splitlines_from_line_feed _ _ EmptyString Hl). simpl append.
    now rewrite IH.
Qed.

(** C4, as the code has it: the quoted content of a section has one line
    per line of the section's text, in the same order, each the line with
    "> " in front of it, and it is that content which the section's block
    holds between its summary and its closing tag; the text "a\nb" gives
    the lines "> a" and "> b"; the empty text gives no line at all. *)
Theorem quote_prefix_every_line :
  (forall v : string,
     PyStr.splitlines (PublishService.quote_lines v)
     = map (fun line => "> " ++ line) (PyStr.splitlines v))
  /\ (forall (default_open : list string) (k v : string),
        exists head,
          PublishService.subsection default_open k v
          = head ++ PyStr.nl ++ PyStr.nl
              ++ PublishService.quote_lines v ++ PyStr.nl ++ "</details>")
  /\ PublishService.quote_lines ("a" ++ PyStr.nl ++ "b")
     = "> a" ++ PyStr.nl ++ "> b"
  /\ PublishService.subsection ["response"] "response" ("a" ++ PyStr.nl ++ "b")
     = "<details open>" ++ PyStr.nl
         ++ "<summary>Response</summary>" ++ PyStr.nl
         ++ PyStr.nl
         ++ "> a" ++ PyStr.nl
         ++ "> b" ++ PyStr.nl
         ++ "</details>"
  /\ PublishService.quote_lines EmptyString = EmptyString
  /\ PyStr.splitlines (PublishService.quote_lines EmptyString) = [].
Proof.
  split; [| split; [| repeat split]].
  - intros v. unfold PublishService.quote_lines.
    apply splitlines_join.
    pose proof (splitlines_no_linebreak v) as H.
    induction H as [| l ls Hl Hls IH]; simpl; constructor; auto.
    split; [exact Hl | discriminate].
  - intros default_open k v. unfold PublishService.subsection.
    exists ("<details"
              ++ (if PyStr.contains default_open k then " open" else EmptyString)
              ++ ">" ++ PyStr.nl ++ "<summary>"
              ++ PyStr.replace_char "_" " " (PyStr.title k) ++ "</summary>").
    now rewrite !append_assoc.
Qed.

(** C4 as stated fails for the empty text: its quoted content is not a
    single line, it has no line. *)
Lemma empty_text_counterexample :
  ~ (exists line : string,
       PyStr.splitlines (PublishService.quote_lines EmptyString) = [line]).
Proof. intros [line H]. discriminate H. Qed.

(** ** The remote reconciler *)

Lemma logged_from_app (a b : Trace) :
  forall pending,
    logged_from pending a = true ->
    logged_from pending (a ++ b)%list = logged_from None b.
Proof.
  induction a as [| e a IH]; intros pending H.
  - destruct pending as [[msg t] |]; [discriminate H | reflexivity].
  - destruct pending as [[msg t] |]; simpl in *.
    + destruct e as [| | msg' [| | t']]; try discriminate H.
      apply andb_true_iff in H as [H1 H2]. rewrite H1. simpl.
      now apply IH.
    + destruct e as [c | req [r |] | msg' d]; try now apply IH.
      destruct (Z.eqb (status_code r) (success_code (method req)));
        now apply IH.
Qed.

Lemma failures_logged_app (a b : Trace) :
  failures_logged a = true -> failures_logged b = true ->
  failures_logged (a ++ b)%list = true.
Proof.
  unfold failures_logged. intros Ha Hb. now rewrite (logged_from_app _ _ _ Ha).
Qed.

Section ReconcilerFacts.

Variable net : Trace -> Request -> HttpResult.
Variable self : GithubPublishService.Config.

Local Abbreviation send := (GithubPublishService.send net).
Local Abbreviation _find_existing_pr :=
  (GithubPublishService._find_existing_pr net self).
Local Abbreviation _create_pr := (GithubPublishService._create_pr net self).
Local Abbreviation _update := (GithubPublishService._update net self).
Local Abbreviation _publish := (GithubPublishService._publish net self).
Local Abbreviation find_request := (GithubPublishService.find_request self).
Local Abbreviation create_request :=
  (GithubPublishService.create_request self).
Local Abbreviation update_request :=
  (GithubPublishService.update_request self).

(** [_find_existing_pr] by the answer it gets. *)
Lemma find_unfold (tr : Trace) :
  _find_existing_pr tr =
  match net tr find_request with
  | Unreachable =>
      (Raise RequestException, (tr ++ [EvRequest find_request Unreachable])%list)
  | Responded r =>
      let tr1 := (tr ++ [EvRequest find_request (Responded r)])%list in
      if Z.eqb (status_code r) 200 then
        match json_body r with
        | None => (Raise JSONDecodeError, tr1)
        | Some prs => if truthy prs then subscript_0 prs tr1 else (Ok JNull, tr1)
        end
      else
        (Ok JNull,
         (tr1 ++ [EvLog "Failed to get pull requests" (ResponseText (text r))])%list)
  end.
Proof.
  unfold GithubPublishService._find_existing_pr, bind,
    GithubPublishService.send.
  destruct (net tr find_request) as [r |]; [| reflexivity]. cbv zeta.
  destruct (Z.eqb (status_code r) 200); [| reflexivity].
  unfold response_json. destruct (json_body r) as [prs |]; [| reflexivity].
  simpl. now destruct (truthy prs).
Qed.

(** [_create_pr] by the answer it gets. *)
Lemma create_unfold (title body : string) (tr : Trace) :
  _create_pr title body tr =
  let req := create_request title body in
  match net tr req with
  | Unreachable => (Raise RequestException, (tr ++ [EvRequest req Unreachable])%list)
  | Responded r =>
      let tr1 := (tr ++ [EvRequest req (Responded r)])%list in
      if Z.eqb (status_code r) 201 then
        match json_body r with
        | None => (Raise JSONDecodeError, tr1)
        | Some j =>
            (Ok tt,
             (tr1 ++ [EvLog "Pull request created successfully" (ResponseJson j)])%list)
        end
      else
        (Ok tt,
         (tr1 ++ [EvLog "Failed to create pull request" (ResponseText (text r))])%list)
  end.
Proof.
  unfold GithubPublishService._create_pr, bind, GithubPublishService.send.
  cbv zeta.
  destruct (net tr (create_request title body)) as [r |]; [| reflexivity].
  destruct (Z.eqb (status_code r) 201); [| reflexivity].
  unfold response_json. now destruct (json_body r).
Qed.


Lemma patch_unfold (number : json) (title body : string) (tr : Trace) :
  patch net self number title body tr =
  let req := update_request number title body in
  match net tr req with
  | Unreachable => (Raise RequestException, (tr ++ [EvRequest req Unreachable])%list)
  | Responded r =>
      let tr1 := (tr ++ [EvRequest req (Responded r)])%list in
      if Z.eqb (status_code r) 200 then
        match json_body r with
        | None => (Raise JSONDecodeError, tr1)
        | Some j =>
            (Ok tt,
             (tr1 ++ [EvLog "Pull request updated successfully" (ResponseJson j)])%list)
        end
      else
        (Ok tt,
         (tr1 ++ [EvLog "Failed to update pull request" (ResponseText (text r))])%list)
  end.
Proof.
  unfold patch, bind, GithubPublishService.send. cbv zeta.
  destruct (net tr (update_request number title body)) as [r |]; [| reflexivity].
  destruct (Z.eqb (status_code r) 200); [| reflexivity].
  unfold response_json. now destruct (json_body r).
Qed.

(** [_update] once its own find has returned. *)
Lemma update_after_find (title body : string) (tr tr1 : Trace) (pr : json) :
  _find_existing_pr tr = (Ok pr, tr1) ->
  _update title body tr =
  if truthy pr then
    match subscript_key pr "number" tr1 with
    | (Ok number, tr2) => patch net self number title body tr2
    | (Raise e, tr2) => (Raise e, tr2)
    end
  else
    (Ok tt,
     (tr1 ++ [EvLog "No existing pull request found to update" NoDetail])%list).
Proof.
  intros E. unfold GithubPublishService._update.
  unfold bind at 1. rewrite E.
  destruct (truthy pr); reflexivity.
Qed.

Lemma publish_after_find (title body : string) (tr tr1 : Trace) (pr : json) :
  _find_existing_pr tr = (Ok pr, tr1) ->
  _publish title body tr =
  if truthy pr then _update title body tr1 else _create_pr title body tr1.
Proof.
  intros E. unfold GithubPublishService._publish, bind. rewrite E.
  now destruct (truthy pr).
Qed.

(** A find sends the find request and no other. *)
Lemma find_requests (tr : Trace) :
  requests_of (snd (_find_existing_pr tr))
  = (requests_of tr ++ [find_request])%list.
Proof.
  rewrite find_unfold.
  destruct (net tr find_request) as [r |]; cbv zeta;
    [| simpl; now rewrite requests_of_app].
  destruct (Z.eqb (status_code r) 200).
  - destruct (json_body r) as [prs |]; [| simpl; now rewrite requests_of_app].
    destruct (truthy prs); [| simpl; now rewrite requests_of_app].
    destruct prs as [| | | [| c s] | [| x l] |]; simpl;
      now rewrite requests_of_app.
  - simpl. rewrite !requests_of_app. simpl. now rewrite app_nil_r.
Qed.

End ReconcilerFacts.

Arguments update_after_find net self title body {tr tr1 pr} _.
Arguments publish_after_find net self title body {tr tr1 pr} _.

Section ReconcilerClaims.

Variable net : Trace -> Request -> HttpResult.
Variable self : GithubPublishService.Config.

Local Abbreviation _find_existing_pr :=
  (GithubPublishService._find_existing_pr net self).
Local Abbreviation _create_pr := (GithubPublishService._create_pr net self).
Local Abbreviation _update := (GithubPublishService._update net self).
Local Abbreviation _publish := (GithubPublishService._publish net self).
Local Abbreviation find_request := (GithubPublishService.find_request self).
Local Abbreviation create_request :=
  (GithubPublishService.create_request self).
Local Abbreviation update_request :=
  (GithubPublishService.update_request self).

(** C8: when the find of [_publish] returns a request and the find that
    [_update] runs next returns none, [_publish] returns after logging
    that there is nothing to update: the two find requests are all it
    sent, no PATCH and no POST. *)
Theorem second_find_none_no_write :
  forall (title body : string) (tr tr1 tr2 : Trace) (pr pr2 : json),
    _find_existing_pr tr = (Ok pr, tr1) ->
    truthy pr = true ->
    _find_existing_pr tr1 = (Ok pr2, tr2) ->
    truthy pr2 = false ->
    _publish title body tr
    = (Ok tt,
       (tr2 ++ [EvLog "No existing pull request found to update" NoDetail])%list)
    /\ requests_of (snd (_publish title body tr))
       = (requests_of tr ++ [find_request; find_request])%list.
Proof.
  intros title body tr tr1 tr2 pr pr2 E1 T1 E2 T2.
  assert (E : _publish title body tr
              = (Ok tt,
                 (tr2 ++ [EvLog "No existing pull request found to update"
                            NoDetail])%list)).
  { rewrite (publish_after_find net self title body E1), T1.
    rewrite (update_after_find net self title body E2), T2. reflexivity. }
  split; [exact E |].
  rewrite E. simpl. rewrite requests_of_app. simpl. rewrite app_nil_r.
  pose proof (find_requests net self tr) as R1. rewrite E1 in R1.
  pose proof (find_requests net self tr1) as R2. rewrite E2 in R2.
  simpl in R1, R2. rewrite R2, R1. now rewrite <- app_assoc.
Qed.

(** C3: when the remote service answers the find request with status 200
    and a list, then: if the list starts with a request numbered [number],
    [_publish] sends the find requests and one PATCH to the URL of that
    request, with the title and body as its payload, and no POST; if the
    list is empty, [_publish] sends one find request and one POST with
    head, base, title and body, and no PATCH.  The requests are written
    out in full. *)
Theorem reconciler_branch_selection :
  forall (title body : string) (tr : Trace) (r : Response),
    let headers :=
      [("Authorization", "Bearer " ++ GithubPublishService.token self);
       ("Accept", "application/vnd.github+json");
       ("X-GitHub-Api-Version", "2022-11-28")] in
    let pulls :=
      UrlPulls (GithubPublishService.owner self)
               (GithubPublishService.repo self) in
    let find :=
      mkRequest GET pulls headers
        [("state", "open");
         ("head", GithubPublishService.owner self ++ ":"
                    ++ GithubPublishService.head_branch self);
         ("base", GithubPublishService.base_branch self)]
        [] in
    status_code r = 200%Z ->
    (forall tr', net tr' find = Responded r) ->
    (forall entries number rest,
       json_body r = Some (JList (JDict entries :: rest)) ->
       dict_get entries "number" = Some number ->
       requests_of (snd (_publish title body tr))
       = (requests_of tr
            ++ [find; find;
                mkRequest PATCH
                (UrlPull (GithubPublishService.owner self)
                         (GithubPublishService.repo self) number)
                headers []
                [("title", title); ("body", body)]])%list)
    /\ (json_body r = Some (JList []) ->
        requests_of (snd (_publish title body tr))
        = (requests_of tr
             ++ [find;
                 mkRequest POST pulls headers []
                 [("head", GithubPublishService.head_branch self);
                  ("base", GithubPublishService.base_branch self);
                  ("title", title);
                  ("body", body)]])%list).
Proof.
  intros title body tr r headers pulls find Hs Hnet.
  change (forall tr', net tr' find_request = Responded r) in Hnet.
  assert (F : forall tr', _find_existing_pr tr'
                = let tr1 := (tr' ++ [EvRequest find_request (Responded r)])%list in
                  match json_body r with
                  | None => (Raise JSONDecodeError, tr1)
                  | Some prs =>
                      if truthy prs then subscript_0 prs tr1 else (Ok JNull, tr1)
                  end).
  { intros tr'. rewrite find_unfold, Hnet. cbv zeta. now rewrite Hs. }
  split.
  - intros entries number rest Hj Hn.
    assert (Ht : truthy (JDict entries) = true)
      by (destruct entries; [discriminate Hn | reflexivity]).
    assert (F' : forall tr', _find_existing_pr tr'
                   = (Ok (JDict entries),
                      (tr' ++ [EvRequest find_request (Responded r)])%list)).
    { intros tr'. rewrite F, Hj. reflexivity. }
    rewrite (publish_after_find net self title body (F' tr)), Ht.
    rewrite (update_after_find net self title body (F' _)), Ht.
    simpl. rewrite Hn. simpl. rewrite patch_unfold. cbv zeta.
    destruct (net _ (update_request number title body)) as [r2 |].
    + destruct (Z.eqb (status_code r2) 200);
        [destruct (json_body r2) |]; simpl;
        rewrite !requests_of_app; simpl; rewrite ?app_nil_r;
        now rewrite <- !app_assoc.
    + simpl. rewrite !requests_of_app. simpl. now rewrite <- !app_assoc.
  - intros Hj.
    assert (F' : _find_existing_pr tr
                 = (Ok JNull, (tr ++ [EvRequest find_request (Responded r)])%list)).
    { rewrite F, Hj. reflexivity. }
    rewrite (publish_after_find net self title body F'). simpl.
    rewrite create_unfold. cbv zeta.
    destruct (net _ (create_request title body)) as [r2 |].
    + destruct (Z.eqb (status_code r2) 201);
        [destruct (json_body r2) |]; simpl;
        rewrite !requests_of_app; simpl; rewrite ?app_nil_r;
        now rewrite <- !app_assoc.
    + simpl. rewrite !requests_of_app. simpl. now rewrite <- !app_assoc.
Qed.

End ReconcilerClaims.

(** ** Responses with a failure status *)

Lemma logged_success (req : Request) (r : Response) :
  status_code r = success_code (method req) ->
  failures_logged [EvRequest req (Responded r)] = true.
Proof.
  intros E. unfold failures_logged. simpl.
  now rewrite (proj2 (Z.eqb_eq _ _) E).
Qed.

Lemma logged_success_entry (req : Request) (r : Response)
    (msg : string) (j : json) :
  status_code r = success_code (method req) ->
  failures_logged [EvRequest req (Responded r); EvLog msg (ResponseJson j)]
  = true.
Proof.
  intros E. unfold failures_logged. simpl.
  now rewrite (proj2 (Z.eqb_eq _ _) E).
Qed.

Lemma logged_failure (req : Request) (r : Response) :
  status_code r <> success_code (method req) ->
  failures_logged
    [EvRequest req (Responded r);
     EvLog (failure_message (method req)) (ResponseText (text r))] = true.
Proof.
  intros E. unfold failures_logged. simpl.
  rewrite (proj2 (Z.eqb_neq _ _) E).
  now rewrite !String.eqb_refl.
Qed.

Section Absorption.

Variable net : Trace -> Request -> HttpResult.
Variable self : GithubPublishService.Config.

(** Every request gets a response, and a usable one. *)
Hypothesis answered :
  forall tr req, exists r, net tr req = Responded r /\ usable req r.

Local Abbreviation _find_existing_pr :=
  (GithubPublishService._find_existing_pr net self).
Local Abbreviation _create_pr := (GithubPublishService._create_pr net self).
Local Abbreviation _update := (GithubPublishService._update net self).
Local Abbreviation _publish := (GithubPublishService._publish net self).
Local Abbreviation find_request := (GithubPublishService.find_request self).
Local Abbreviation create_request :=
  (GithubPublishService.create_request self).
Local Abbreviation update_request :=
  (GithubPublishService.update_request self).

Lemma find_absorbs (tr : Trace) :
  exists pr more,
    _find_existing_pr tr = (Ok pr, (tr ++ more)%list)
    /\ failures_logged more = true
    /\ requests_of more = [find_request]
    /\ (truthy pr = true ->
        exists entries number,
          pr = JDict entries /\ dict_get entries "number" = Some number).
Proof.
  destruct (answered tr find_request) as (r & E & U).
  rewrite find_unfold, E. cbv zeta.
  destruct (Z.eqb_spec (status_code r) 200) as [Hs | Hs].
  - destruct (U Hs) as (items & Hj & Hitems). rewrite Hj.
    destruct items as [| pr rest]; simpl.
    + exists JNull, [EvRequest find_request (Responded r)].
      repeat split; [now apply logged_success | discriminate].
    + exists pr, [EvRequest find_request (Responded r)].
      repeat split; [now apply logged_success | intros _; exact Hitems].
  - exists JNull,
      [EvRequest find_request (Responded r);
       EvLog "Failed to get pull requests" (ResponseText (text r))].
    rewrite <- app_assoc. repeat split;
      [exact (logged_failure find_request r Hs) | discriminate].
Qed.

Lemma create_absorbs (title body : string) (tr : Trace) :
  exists more,
    _create_pr title body tr = (Ok tt, (tr ++ more)%list)
    /\ failures_logged more = true
    /\ requests_of more = [create_request title body].
Proof.
  destruct (answered tr (create_request title body)) as (r & E & U).
  rewrite create_unfold. cbv zeta. rewrite E.
  destruct (Z.eqb_spec (status_code r) 201) as [Hs | Hs].
  - specialize (U Hs). simpl in U.
    destruct (json_body r) as [j |]; [| congruence].
    eexists. rewrite <- app_assoc. repeat split.
    now apply logged_success_entry.
  - eexists. rewrite <- app_assoc. repeat split.
    exact (logged_failure (create_request title body) r Hs).
Qed.

Lemma patch_absorbs (number : json) (title body : string) (tr : Trace) :
  exists more,
    patch net self number title body tr = (Ok tt, (tr ++ more)%list)
    /\ failures_logged more = true
    /\ requests_of more = [update_request number title body].
Proof.
  destruct (answered tr (update_request number title body)) as (r & E & U).
  rewrite patch_unfold. cbv zeta. rewrite E.
  destruct (Z.eqb_spec (status_code r) 200) as [Hs | Hs].
  - specialize (U Hs). simpl in U.
    destruct (json_body r) as [j |]; [| congruence].
    eexists. rewrite <- app_assoc. repeat split.
    now apply logged_success_entry.
  - eexists. rewrite <- app_assoc. repeat split.
    exact (logged_failure (update_request number title body) r Hs).
Qed.

Lemma update_absorbs (title body : string) (tr : Trace) :
  exists more,
    _update title body tr = (Ok tt, (tr ++ more)%list)
    /\ failures_logged more = true
    /\ (requests_of more = [find_request]
        \/ exists number,
             requests_of more
             = [find_request; update_request number title body]).
Proof.
  destruct (find_absorbs tr) as (pr & m1 & E1 & L1 & R1 & Hpr).
  rewrite (update_after_find net self title body E1).
  destruct (truthy pr).
  - destruct (Hpr eq_refl) as (entries & number & -> & Hn).
    simpl. rewrite Hn. simpl.
    destruct (patch_absorbs number title body (tr ++ m1)%list)
      as (m2 & E2 & L2 & R2).
    exists (m1 ++ m2)%list. rewrite E2, <- app_assoc.
    split; [reflexivity | split; [now apply failures_logged_app |]].
    rewrite requests_of_app, R1, R2. right. now exists number.
  - exists (m1 ++ [EvLog "No existing pull request found to update" NoDetail])%list.
    rewrite <- app_assoc.
    split; [reflexivity | split; [now apply failures_logged_app |]].
    rewrite requests_of_app, R1. now left.
Qed.


End Absorption.



Lemma net_found_answered :
  forall tr req, exists r, net_found tr req = Responded r /\ usable req r.
Proof.
  intros tr [m u h p d]. unfold net_found, usable. simpl.
  destruct m; eexists; (split; [reflexivity |]); simpl; try discriminate.
  intros _. exists [open_request_7]. split; [reflexivity |].
  now exists [("number", JInt 7); ("state", JStr "open")], (JInt 7).
Qed.


Lemma reconciler_branch_selection_witness :
  requests_of
    (snd (GithubPublishService._publish net_found example_config
            "title" "body" []))
  = [example_find; example_find; example_patch (JInt 7) "title" "body"]
  /\ requests_of
       (snd (GithubPublishService._publish net_none example_config
               "title" "body" []))
     = [example_find; example_post "title" "body"].
Proof.
  split.
  - exact (proj1 (reconciler_branch_selection net_found example_config
                    "title" "body" [] found_response
                    eq_refl (fun _ => eq_refl))
             [("number", JInt 7); ("state", JStr "open")] (JInt 7) []
             eq_refl eq_refl).
  - exact (proj2 (reconciler_branch_selection net_none example_config
                    "title" "body" [] none_response
                    eq_refl (fun _ => eq_refl))
             eq_refl).
Defined.

Lemma second_find_none_no_write_witness :
  let find := GithubPublishService.find_request example_config in
  let tr1 := [EvRequest find (Responded found_response)] in
  let tr2 := [EvRequest find (Responded found_response);
              EvRequest find (Responded none_response)] in
  GithubPublishService._publish net_vanishing example_config "title" "body" []
  = (Ok tt,
     (tr2 ++ [EvLog "No existing pull request found to update" NoDetail])%list)
  /\ requests_of
       (snd (GithubPublishService._publish net_vanishing example_config
               "title" "body" []))
     = ([] ++ [find; find])%list.
Proof.
  exact (second_find_none_no_write net_vanishing example_config
           "title" "body" []
           [EvRequest (GithubPublishService.find_request example_config)
              (Responded found_response)]
           [EvRequest (GithubPublishService.find_request example_config)
              (Responded found_response);
            EvRequest (GithubPublishService.find_request example_config)
              (Responded none_response)]
           open_request_7 JNull
           eq_refl eq_refl eq_refl eq_refl).
Defined.

(** * Further properties of the service *)

(** ** What one publish sends, whatever the remote service answers *)

Lemma commits_of_app (tr more : Trace) :
  commits_of (tr ++ more)%list = (commits_of tr ++ commits_of more)%list.
Proof.
  induction tr as [| e tr IH]; [reflexivity |].
  destruct e; simpl; now rewrite IH.
Qed.

Section ReconcilerShape.

Variable net : Trace -> Request -> HttpResult.
Variable self : GithubPublishService.Config.

Local Abbreviation _find_existing_pr :=
  (GithubPublishService._find_existing_pr net self).
Local Abbreviation _create_pr := (GithubPublishService._create_pr net self).
Local Abbreviation _update := (GithubPublishService._update net self).
Local Abbreviation _publish := (GithubPublishService._publish net self).
Local Abbreviation find_request := (GithubPublishService.find_request self).
Local Abbreviation create_request :=
  (GithubPublishService.create_request self).
Local Abbreviation update_request :=
  (GithubPublishService.update_request self).

(** A find adds its request and, after it, log entries only. *)
Lemma find_shape (tr : Trace) :
  exists logs,
    snd (_find_existing_pr tr)
    = (tr ++ EvRequest find_request (net tr find_request) :: logs)%list
    /\ requests_of logs = [] /\ commits_of logs = [].
Proof.
  rewrite find_unfold.
  destruct (net tr find_request) as [r |]; cbv zeta;
    [| exists []; now repeat split].
  destruct (Z.eqb (status_code r) 200).
  - exists []. repeat split.
    destruct (json_body r) as [prs |]; [| reflexivity].
    destruct (truthy prs); [| reflexivity].
    now destruct prs as [| | | [| c s] | [| x l] |].
  - eexists. rewrite <- app_assoc. now repeat split.
Qed.

Lemma create_shape (title body : string) (tr : Trace) :
  exists logs,
    snd (_create_pr title body tr)
    = (tr ++ EvRequest (create_request title body)
               (net tr (create_request title body)) :: logs)%list
    /\ requests_of logs = [] /\ commits_of logs = [].
Proof.
  rewrite create_unfold. cbv zeta.
  destruct (net tr (create_request title body)) as [r |];
    [| exists []; now repeat split].
  destruct (Z.eqb (status_code r) 201).
  - destruct (json_body r) as [j |].
    + eexists. simpl. rewrite <- app_assoc. now repeat split.
    + exists []. now repeat split.
  - eexists. simpl. rewrite <- app_assoc. now repeat split.
Qed.

Lemma patch_shape (number : json) (title body : string) (tr : Trace) :
  exists logs,
    snd (patch net self number title body tr)
    = (tr ++ EvRequest (update_request number title body)
               (net tr (update_request number title body)) :: logs)%list
    /\ requests_of logs = [] /\ commits_of logs = [].
Proof.
  rewrite patch_unfold. cbv zeta.
  destruct (net tr (update_request number title body)) as [r |];
    [| exists []; now repeat split].
  destruct (Z.eqb (status_code r) 200).
  - destruct (json_body r) as [j |].
    + eexists. simpl. rewrite <- app_assoc. now repeat split.
    + exists []. now repeat split.
  - eexists. simpl. rewrite <- app_assoc. now repeat split.
Qed.

(** [_update] sends its find and then at most the one PATCH. *)
Lemma update_shape (title body : string) (tr : Trace) :
  exists more,
    snd (_update title body tr) = (tr ++ more)%list
    /\ commits_of more = []
    /\ (requests_of more = [find_request]
        \/ exists number,
             requests_of more
             = [find_request; update_request number title body]).
Proof.
  destruct (find_shape tr) as (l1 & S1 & R1 & C1).
  destruct (_find_existing_pr tr) as [[pr | e] tr1] eqn:E; simpl in S1; subst tr1.
  - rewrite (update_after_find net self title body E).
    destruct (truthy pr).
    + assert (Hraise : forall e : exn,
                exists more,
                  (tr ++ EvRequest find_request (net tr find_request) :: l1)%list
                  = (tr ++ more)%list
                  /\ commits_of more = []
                  /\ (requests_of more = [find_request]
                      \/ exists number,
                           requests_of more
                           = [find_request; update_request number title body])).
      { intros _. eexists. split; [reflexivity |]. simpl. rewrite R1, C1. auto. }
      destruct pr as [| b | n | s | items | entries]; simpl;
        try exact (Hraise TypeError).
      destruct (dict_get entries "number") as [number |]; simpl;
        [| exact (Hraise KeyError)].
      destruct (patch_shape number title body
                  (tr ++ EvRequest find_request (net tr find_request) :: l1)%list)
        as (l2 & S2 & R2 & C2).
      rewrite S2.
      eexists. rewrite <- app_assoc. split; [reflexivity |].
      simpl. rewrite commits_of_app, requests_of_app. simpl.
      rewrite R1, R2, C1, C2. split; [reflexivity |].
      right. now exists number.
    + simpl. rewrite <- app_assoc. eexists. split; [reflexivity |].
      simpl. rewrite commits_of_app, requests_of_app. simpl.
      rewrite R1, C1. auto.
  - unfold GithubPublishService._update, bind. rewrite E.
    eexists. split; [reflexivity |]. simpl. rewrite R1, C1. auto.
Qed.

(** The requests of one [_publish]: the find alone (when it raised), the
    find and the POST, or the two finds with at most the PATCH. *)
Lemma publish_shape (title body : string) (tr : Trace) :
  exists more,
    snd (_publish title body tr) = (tr ++ more)%list
    /\ commits_of more = []
    /\ (requests_of more = [find_request]
        \/ requests_of more = [find_request; create_request title body]
        \/ requests_of more = [find_request; find_request]
        \/ exists number,
             requests_of more
             = [find_request; find_request; update_request number title body]).
Proof.
  destruct (find_shape tr) as (l1 & S1 & R1 & C1).
  destruct (_find_existing_pr tr) as [[pr | e] tr1] eqn:E; simpl in S1; subst tr1.
  - rewrite (publish_after_find net self title body E).
    destruct (truthy pr).
    + destruct (update_shape title body
                  (tr ++ EvRequest find_request (net tr find_request) :: l1)%list)
        as (m2 & S2 & C2 & R2).
      rewrite S2. eexists. rewrite <- app_assoc. split; [reflexivity |].
      simpl. rewrite commits_of_app, requests_of_app. simpl.
      rewrite R1, C1. split; [exact C2 |].
      destruct R2 as [R2 | [number R2]]; rewrite R2; simpl;
        [right; right; left; reflexivity
        | right; right; right; exists number; reflexivity].
    + destruct (create_shape title body
                  (tr ++ EvRequest find_request (net tr find_request) :: l1)%list)
        as (l2 & S2 & R2 & C2).
      rewrite S2. eexists. rewrite <- app_assoc. split; [reflexivity |].
      simpl. rewrite commits_of_app, requests_of_app. simpl.
      rewrite R1, R2, C1, C2. auto.
  - unfold GithubPublishService._publish, bind. rewrite E.
    eexists. split; [reflexivity |]. simpl. rewrite R1, C1. auto.
Qed.

End ReconcilerShape.

(** ** Entry points over any publisher *)

Section EntryPoints.

Variable _publish : string -> string -> Eff unit.

(** An entry point changes the object, composes the document from the
    object as changed and hands it to [_publish]: its outcome and its
    trace are those of that one [_publish]. *)
Lemma call_publish (op : PublishService.Op) (st : PublishService.t * Trace) :
  let self' := fst (snd (PublishService.call _publish op st)) in
  let pushed :=
    _publish (PullRequestDescription.title (PublishService.pr_desc self'))
             (PublishService._build_body self' (is_finalize op)) (snd st) in
  fst (PublishService.call _publish op st) = fst pushed
  /\ snd (snd (PublishService.call _publish op st)) = snd pushed.
Proof.
  destruct op as [pr | txt | summary dopen kwargs |]; simpl.
  - rewrite set_pr_description_unfold, update_unfold. simpl. now split.
  - rewrite publish_update_unfold, update_unfold. simpl. now split.
  - unfold PublishService.publish_call.
    rewrite publish_update_unfold, update_unfold. simpl. now split.
  - rewrite finalize_unfold. simpl. now split.
Qed.

End EntryPoints.

(** X1: on the base class every entry point raises [NotImplementedError]
    without any effect on the outside world, yet after the object has been
    changed: the fragment of [publish_update] stays appended. *)
Theorem base_class_raises :
  forall (op : PublishService.Op) (self : PublishService.t) (tr : Trace)
         (txt : string),
    fst (PublishService.call PublishService._publish op (self, tr))
    = Raise NotImplementedError
    /\ snd (snd (PublishService.call PublishService._publish op (self, tr))) = tr
    /\ PublishService.progress_updates
         (fst (snd (PublishService.publish_update PublishService._publish txt
                      (self, tr))))
       = (PublishService.progress_updates self ++ [txt])%list.
Proof.
  intros op self tr txt.
  destruct (call_publish PublishService._publish op (self, tr)) as [E1 E2].
  rewrite E1, E2. split; [reflexivity | split; [reflexivity |]].
  rewrite publish_update_unfold, update_unfold. reflexivity.
Qed.

(** ** The requests of a publish and of a run *)

(** X2: whatever the remote service answers, one [_publish] sends the
    find alone, the find and one POST, two finds, or two finds and one
    PATCH: never a POST and a PATCH together, never a second attempt.  The
    POST carries head, base and the title and body given; the PATCH goes
    to the URL of one request and carries the title and body given.  The
    requests are written out in full. *)
Theorem publish_requests :
  forall (net : Trace -> Request -> HttpResult)
         (self : GithubPublishService.Config)
         (title body : string) (tr : Trace),
    let headers :=
      [("Authorization", "Bearer " ++ GithubPublishService.token self);
       ("Accept", "application/vnd.github+json");
       ("X-GitHub-Api-Version", "2022-11-28")] in
    let pulls :=
      UrlPulls (GithubPublishService.owner self)
               (GithubPublishService.repo self) in
    let find :=
      mkRequest GET pulls headers
        [("state", "open");
         ("head", GithubPublishService.owner self ++ ":"
                    ++ GithubPublishService.head_branch self);
         ("base", GithubPublishService.base_branch self)]
        [] in
    let post :=
      mkRequest POST pulls headers []
        [("head", GithubPublishService.head_branch self);
         ("base", GithubPublishService.base_branch self);
         ("title", title);
         ("body", body)] in
    let patch := fun number : json =>
      mkRequest PATCH
        (UrlPull (GithubPublishService.owner self)
                 (GithubPublishService.repo self) number)
        headers []
        [("title", title); ("body", body)] in
    exists sent,
      requests_of (snd (GithubPublishService._publish net self title body tr))
      = (requests_of tr ++ sent)%list
      /\ (sent = [find]
          \/ sent = [find; post]
          \/ sent = [find; find]
          \/ exists number, sent = [find; find; patch number]).
Proof.
  intros net self title body tr headers pulls find post patch.
  destruct (publish_shape net self title body tr) as (more & E & _ & R).
  exists (requests_of more). rewrite E, requests_of_app. split; [reflexivity |].
  exact R.
Qed.

(** X3: every request a [_publish] sends carries the headers of
    [_get_headers], with the bearer token, and goes to the pulls of the
    configured owner and repository. *)
Theorem publish_requests_well_addressed :
  forall (net : Trace -> Request -> HttpResult)
         (self : GithubPublishService.Config)
         (title body : string) (tr : Trace),
  exists sent,
    requests_of (snd (GithubPublishService._publish net self title body tr))
    = (requests_of tr ++ sent)%list
    /\ Forall (well_addressed self) sent.
Proof.
  intros net self title body tr.
  destruct (publish_shape net self title body tr) as (more & E & _ & R).
  exists (requests_of more). rewrite E, requests_of_app. split; [reflexivity |].
  assert (Hf : well_addressed self (GithubPublishService.find_request self))
    by (repeat split; simpl; auto).
  assert (Hc : well_addressed self
                 (GithubPublishService.create_request self title body))
    by (repeat split; simpl; auto).
  assert (Hu : forall number,
             well_addressed self
               (GithubPublishService.update_request self number title body))
    by (intros number; repeat split; simpl; eauto).
  destruct R as [-> | [-> | [-> | [number ->]]]];
    repeat (apply Forall_cons; [solve [auto] |]); apply Forall_nil.
Qed.

Section RunFacts.

Variable net : Trace -> Request -> HttpResult.
Variable self : GithubPublishService.Config.

Local Abbreviation _publish := (GithubPublishService._publish net self).
Local Abbreviation find_request := (GithubPublishService.find_request self).

(** One entry point: no commit, and between one and three requests. *)
Lemma call_shape (op : PublishService.Op) (st : PublishService.t * Trace) :
  exists more,
    snd (snd (PublishService.call _publish op st)) = (snd st ++ more)%list
    /\ commits_of more = []
    /\ 1 <= List.length (requests_of more) <= 3.
Proof.
  destruct (call_publish _publish op st) as [_ E]. rewrite E.
  match goal with
  | |- context [_publish ?t ?b (snd st)] =>
      destruct (publish_shape net self t b (snd st)) as (more & S & C & R)
  end.
  exists more. split; [exact S | split; [exact C |]].
  destruct R as [-> | [-> | [-> | [number ->]]]]; simpl; lia.
Qed.

Lemma run_shape (ops : list PublishService.Op) :
  forall st : PublishService.t * Trace,
  exists more,
    snd (snd (PublishService.run _publish ops st)) = (snd st ++ more)%list
    /\ commits_of more = []
    /\ List.length ops <= List.length (requests_of more)
       <= 3 * List.length ops.
Proof.
  induction ops as [| op ops IH]; intros st.
  - exists []. simpl. rewrite app_nil_r. repeat split; lia.
  - destruct (call_shape op st) as (m1 & S1 & C1 & R1). simpl.
    destruct (PublishService.call _publish op st) as [r st1]. simpl in S1.
    destruct (IH st1) as (m2 & S2 & C2 & R2).
    destruct (PublishService.run _publish ops st1) as [rs st2]. simpl in *.
    exists (m1 ++ m2)%list. rewrite S2, S1, <- app_assoc.
    split; [reflexivity |].
    rewrite commits_of_app, requests_of_app, length_app, C1, C2.
    split; [reflexivity | lia].
Qed.

End RunFacts.

(** X4: the placeholder commit of the constructor is the only commit of an
    accumulator's life: after any sequence of entry-point calls, whatever
    the remote service answered, the commits recorded are still that one. *)
Theorem only_commit_is_placeholder :
  forall (net : Trace -> Request -> HttpResult)
         (self : GithubPublishService.Config)
         (issue : Issue.t) (ops : list PublishService.Op),
    match GithubPublishService.__init__ issue [] with
    | (Ok acc, tr0) =>
        commits_of
          (snd (snd (GithubPublishService.run net self ops (acc, tr0))))
        = [PublishService.empty_commit]
    | (Raise _, _) => False
    end.
Proof.
  intros net self issue ops.
  destruct (init_result issue []) as (acc & E & _ & _).
  unfold GithubPublishService.__init__. rewrite E.
  destruct (run_shape net self ops
              (acc, ([] ++ [EvCommit PublishService.empty_commit])%list))
    as (more & S & C & _).
  etransitivity; [exact (f_equal commits_of S) |].
  simpl. now rewrite C.
Qed.


(** ** Failures that are not absorbed *)

(** X6: when the find request cannot be delivered, the entry point raises
    [RequestException] after that single request: nothing is logged and
    no create or update is tried. *)
Theorem unreachable_find_raises :
  forall (net : Trace -> Request -> HttpResult)
         (self : GithubPublishService.Config)
         (op : PublishService.Op) (st : PublishService.t * Trace),
    net (snd st) (GithubPublishService.find_request self) = Unreachable ->
    fst (PublishService.call (GithubPublishService._publish net self) op st)
    = Raise RequestException
    /\ snd (snd (PublishService.call (GithubPublishService._publish net self)
                   op st))
       = (snd st ++ [EvRequest (GithubPublishService.find_request self)
                       Unreachable])%list.
Proof.
  intros net self op st Hnet.
  destruct (call_publish (GithubPublishService._publish net self) op st)
    as [E1 E2].
  rewrite E1, E2.
  unfold GithubPublishService._publish, bind.
  rewrite find_unfold, Hnet. now split.
Qed.

Lemma unreachable_find_raises_witness :
  let st := (example_accumulator "Adds a guard." [], []) in
  fst (PublishService.call
         (GithubPublishService._publish net_unreachable example_config)
         (PublishService.OpPublishUpdate "step 1") st)
  = Raise RequestException
  /\ snd (snd (PublishService.call
                 (GithubPublishService._publish net_unreachable example_config)
                 (PublishService.OpPublishUpdate "step 1") st))
     = ([] ++ [EvRequest (GithubPublishService.find_request example_config)
                 Unreachable])%list.
Proof.
  exact (unreachable_find_raises net_unreachable example_config
           (PublishService.OpPublishUpdate "step 1")
           (example_accumulator "Adds a guard." [], []) eq_refl).
Defined.

(** X7: a find answered with a status other than 200 is logged and then
    taken for "no open request": [_publish] goes on to send the POST that
    creates one. *)
Theorem failed_listing_creates :
  forall (net : Trace -> Request -> HttpResult)
         (self : GithubPublishService.Config)
         (title body : string) (tr : Trace) (r : Response),
    net tr (GithubPublishService.find_request self) = Responded r ->
    status_code r <> 200%Z ->
    requests_of (snd (GithubPublishService._publish net self title body tr))
    = (requests_of tr
         ++ [GithubPublishService.find_request self;
             GithubPublishService.create_request self title body])%list
    /\ In (EvLog "Failed to get pull requests" (ResponseText (text r)))
          (snd (GithubPublishService._publish net self title body tr)).
Proof.
  intros net self title body tr r Hnet Hs.
  assert (F : GithubPublishService._find_existing_pr net self tr
              = (Ok JNull,
                 ((tr ++ [EvRequest (GithubPublishService.find_request self)
                            (Responded r)])
                    ++ [EvLog "Failed to get pull requests"
                          (ResponseText (text r))])%list)).
  { rewrite find_unfold, Hnet. cbv zeta.
    now rewrite (proj2 (Z.eqb_neq _ _) Hs). }
  rewrite (publish_after_find net self title body F). simpl.
  match goal with
  | |- context [GithubPublishService._create_pr net self title body ?t] =>
      destruct (create_shape net self title body t) as (logs & S & R & _)
  end.
  rewrite S. split.
  - rewrite !requests_of_app. simpl. rewrite R, <- !app_assoc. reflexivity.
  - apply in_or_app. left. apply in_or_app. right. now left.
Qed.

Lemma failed_listing_creates_witness :
  requests_of
    (snd (GithubPublishService._publish net_listing_fails example_config
            "title" "body" []))
  = ([] ++ [GithubPublishService.find_request example_config;
            GithubPublishService.create_request example_config
              "title" "body"])%list
  /\ In (EvLog "Failed to get pull requests"
           (ResponseText (text unavailable_response)))
        (snd (GithubPublishService._publish net_listing_fails example_config
                "title" "body" [])).
Proof.
  apply (failed_listing_creates net_listing_fails example_config
           "title" "body" [] unavailable_response eq_refl).
  discriminate.
Defined.

(** X8: when the listed request is an object without a ["number"], the
    lookup in [_update] raises [KeyError]: [_publish] raises after its two
    finds, and neither a PATCH nor a POST is sent. *)
Theorem unnumbered_request_raises :
  forall (net : Trace -> Request -> HttpResult)
         (self : GithubPublishService.Config)
         (title body : string) (tr : Trace) (r : Response)
         (entries : list (string * json)) (rest : list json),
    status_code r = 200%Z ->
    json_body r = Some (JList (JDict entries :: rest)) ->
    entries <> [] ->
    dict_get entries "number" = None ->
    (forall tr', net tr' (GithubPublishService.find_request self) = Responded r) ->
    GithubPublishService._publish net self title body tr
    = (Raise KeyError,
       (tr ++ [EvRequest (GithubPublishService.find_request self) (Responded r);
               EvRequest (GithubPublishService.find_request self) (Responded r)])%list).
Proof.
  intros net self title body tr r entries rest Hs Hj Hne Hn Hnet.
  assert (Ht : truthy (JDict entries) = true)
    by (destruct entries; [congruence | reflexivity]).
  assert (F : forall tr',
             GithubPublishService._find_existing_pr net self tr'
             = (Ok (JDict entries),
                (tr' ++ [EvRequest (GithubPublishService.find_request self)
                           (Responded r)])%list)).
  { intros tr'. rewrite find_unfold, Hnet. cbv zeta. now rewrite Hs, Hj. }
  rewrite (publish_after_find net self title body (F tr)), Ht.
  rewrite (update_after_find net self title body (F _)), Ht.
  simpl. rewrite Hn. simpl. now rewrite <- app_assoc.
Qed.

Lemma unnumbered_request_raises_witness :
  GithubPublishService._publish net_unnumbered example_config "title" "body" []
  = (Raise KeyError,
     ([] ++ [EvRequest (GithubPublishService.find_request example_config)
               (Responded unnumbered_response);
             EvRequest (GithubPublishService.find_request example_config)
               (Responded unnumbered_response)])%list).
Proof.
  apply (unnumbered_request_raises net_unnumbered example_config
           "title" "body" [] unnumbered_response
           [("state", JStr "open")] []);
    [reflexivity | reflexivity | discriminate | reflexivity
    | intros tr'; reflexivity].
Defined.

(** X9: when the POST is answered with status 201 and a body that is not
    JSON, [_publish] raises [JSONDecodeError] after the request was sent
    and accepted, and nothing is logged for it. *)
Theorem undecodable_created_raises :
  forall (net : Trace -> Request -> HttpResult)
         (self : GithubPublishService.Config)
         (title body : string) (tr : Trace) (r1 r2 : Response),
    let find := GithubPublishService.find_request self in
    let create := GithubPublishService.create_request self title body in
    net tr find = Responded r1 ->
    status_code r1 = 200%Z ->
    json_body r1 = Some (JList []) ->
    net (tr ++ [EvRequest find (Responded r1)])%list create = Responded r2 ->
    status_code r2 = 201%Z ->
    json_body r2 = None ->
    GithubPublishService._publish net self title body tr
    = (Raise JSONDecodeError,
       (tr ++ [EvRequest find (Responded r1);
               EvRequest create (Responded r2)])%list).
Proof.
  intros net self title body tr r1 r2 find create H1 S1 J1 H2 S2 J2.
  assert (F : GithubPublishService._find_existing_pr net self tr
              = (Ok JNull, (tr ++ [EvRequest find (Responded r1)])%list)).
  { rewrite find_unfold. fold find. rewrite H1. cbv zeta. now rewrite S1, J1. }
  rewrite (publish_after_find net self title body F). simpl.
  rewrite create_unfold. cbv zeta. fold create. rewrite H2, S2, J2. simpl.
  now rewrite <- app_assoc.
Qed.

Lemma undecodable_created_raises_witness :
  GithubPublishService._publish net_garbled_created example_config
    "title" "body" []
  = (Raise JSONDecodeError,
     ([] ++ [EvRequest (GithubPublishService.find_request example_config)
               (Responded none_response);
             EvRequest (GithubPublishService.create_request example_config
                          "title" "body")
               (Responded garbled_created_response)])%list).
Proof.
  exact (undecodable_created_raises net_garbled_created example_config
           "title" "body" [] none_response garbled_created_response
           eq_refl eq_refl eq_refl eq_refl eq_refl eq_refl).
Defined.

(** ** What reaches the remote request *)

Lemma publish_found_requests
    (net : Trace -> Request -> HttpResult)
    (self : GithubPublishService.Config)
    (title body : string) (tr : Trace) (r : Response)
    (entries : list (string * json)) (number : json) (rest : list json) :
  status_code r = 200%Z ->
  json_body r = Some (JList (JDict entries :: rest)) ->
  dict_get entries "number" = Some number ->
  (forall tr', net tr' (GithubPublishService.find_request self) = Responded r) ->
  requests_of (snd (GithubPublishService._publish net self title body tr))
  = (requests_of tr
       ++ [GithubPublishService.find_request self;
           GithubPublishService.find_request self;
           GithubPublishService.update_request self number title body])%list.
Proof.
  intros Hs Hj Hn Hnet.
  assert (Ht : truthy (JDict entries) = true)
    by (destruct entries; [discriminate Hn | reflexivity]).
  assert (F : forall tr',
             GithubPublishService._find_existing_pr net self tr'
             = (Ok (JDict entries),
                (tr' ++ [EvRequest (GithubPublishService.find_request self)
                           (Responded r)])%list)).
  { intros tr'. rewrite find_unfold, Hnet. cbv zeta. now rewrite Hs, Hj. }
  rewrite (publish_after_find net self title body (F tr)), Ht.
  rewrite (update_after_find net self title body (F _)), Ht.
  simpl. rewrite Hn. simpl.
  match goal with
  | |- context [patch net self number title body ?t] =>
      destruct (patch_shape net self number title body t) as (logs & S & R & _)
  end.
  rewrite S, !requests_of_app. simpl. rewrite R, <- !app_assoc. reflexivity.
Qed.

(** X10: with an open request numbered [number] on the remote service,
    every entry point sends one PATCH to the URL of that request, whose
    payload is the title of the description the object holds after the
    call and the body composed from the object after the call: all
    fragments up to the one just appended, wrapped only when the entry
    point is [finalize]. *)
Theorem entry_point_patches_current_document :
  forall (net : Trace -> Request -> HttpResult)
         (self : GithubPublishService.Config)
         (op : PublishService.Op) (st : PublishService.t * Trace)
         (r : Response) (entries : list (string * json))
         (number : json) (rest : list json),
    let headers :=
      [("Authorization", "Bearer " ++ GithubPublishService.token self);
       ("Accept", "application/vnd.github+json");
       ("X-GitHub-Api-Version", "2022-11-28")] in
    let pulls :=
      UrlPulls (GithubPublishService.owner self)
               (GithubPublishService.repo self) in
    let find :=
      mkRequest GET pulls headers
        [("state", "open");
         ("head", GithubPublishService.owner self ++ ":"
                    ++ GithubPublishService.head_branch self);
         ("base", GithubPublishService.base_branch self)]
        [] in
    status_code r = 200%Z ->
    json_body r = Some (JList (JDict entries :: rest)) ->
    dict_get entries "number" = Some number ->
    (forall tr', net tr' find = Responded r) ->
    let after :=
      snd (PublishService.call (GithubPublishService._publish net self) op st) in
    requests_of (snd after)
    = (requests_of (snd st)
         ++ [find; find;
             mkRequest PATCH
               (UrlPull (GithubPublishService.owner self)
                        (GithubPublishService.repo self) number)
               headers []
               [("title",
                 PullRequestDescription.title
                   (PublishService.pr_desc (fst after)));
                ("body",
                 PublishService._build_body (fst after) (is_finalize op))]])%list.
Proof.
  intros net self op st r entries number rest headers pulls find
         Hs Hj Hn Hnet. cbv zeta.
  destruct (call_publish (GithubPublishService._publish net self) op st)
    as [_ E].
  rewrite E at 1.
  now apply (publish_found_requests net self _ _ (snd st) r entries number rest).
Qed.

Lemma entry_point_patches_current_document_witness :
  let st := (example_accumulator "Adds a guard." ["step 1"], []) in
  let after :=
    snd (PublishService.call
           (GithubPublishService._publish net_found example_config)
           (PublishService.OpPublishUpdate "step 2") st) in
  PublishService.progress_updates (fst after) = ["step 1"; "step 2"]
  /\ requests_of (snd after)
     = ([] ++ [example_find; example_find;
               example_patch (JInt 7)
                 "Fix #42: Fix null pointer"
                 ("Fixes #42" ++ PyStr.nl ++ PyStr.nl ++ "Adds a guard."
                    ++ "# Progress updates" ++ PyStr.nl
                    ++ PyStr.nl ++ "step 1"
                    ++ PyStr.nl ++ "step 2")])%list.
Proof.
  split; [reflexivity |].
  exact (entry_point_patches_current_document net_found example_config
           (PublishService.OpPublishUpdate "step 2")
           (example_accumulator "Adds a guard." ["step 1"], [])
           found_response [("number", JInt 7); ("state", JStr "open")]
           (JInt 7) [] eq_refl eq_refl eq_refl (fun _ => eq_refl)).
Defined.

(** ** The composed body, fragment by fragment *)

Lemma fragments_text_snoc (updates : list string) (txt : string) :
  fragments_text (updates ++ [txt])%list
  = fragments_text updates ++ PyStr.nl ++ txt.
Proof.
  induction updates as [| x l IH]; simpl.
  - now rewrite append_nil_r.
  - rewrite IH. now rewrite !append_assoc.
Qed.

Lemma build_progress_updates_snoc (issue : Issue.t)
    (pr_desc : PullRequestDescription.t) (updates : list string) (txt : string) :
  PublishService._build_progress_updates
    (PublishService.mk issue pr_desc (updates ++ [txt])%list)
  = PublishService._build_progress_updates
      (PublishService.mk issue pr_desc updates)
      ++ match updates with
         | [] => "# Progress updates" ++ PyStr.nl
         | _ => EmptyString
         end
      ++ PyStr.nl ++ txt.
Proof.
  unfold PublishService._build_progress_updates.
  destruct updates as [| u us]; [reflexivity |].
  change (PublishService.progress_updates
            (PublishService.mk issue pr_desc ((u :: us) ++ [txt])%list))
    with (u :: (us ++ [txt]))%list.
  change (PublishService.progress_updates
            (PublishService.mk issue pr_desc (u :: us)))
    with (u :: us).
  cbv iota. rewrite !fold_left_fragments.
  change (fragments_text (u :: us ++ [txt]))
    with (fragments_text ((u :: us) ++ [txt])%list).
  rewrite fragments_text_snoc. rewrite !append_assoc. reflexivity.
Qed.

(** X12: appending a fragment extends the body that was composed before
    it: the new body is the old one, then the "# Progress updates" header
    line if this is the first fragment, then a line feed and the
    fragment.  What was published earlier is never rewritten. *)
Theorem appended_fragment_extends_body :
  forall (self : PublishService.t) (txt : string),
    let appended :=
      PublishService.mk (PublishService.issue self)
        (PublishService.pr_desc self)
        (PublishService.progress_updates self ++ [txt])%list in
    PublishService._build_body appended false
    = PublishService._build_body self false
        ++ match PublishService.progress_updates self with
           | [] => "# Progress updates" ++ PyStr.nl
           | _ => EmptyString
           end
        ++ PyStr.nl ++ txt.
Proof.
  intros [issue pr_desc updates] txt. cbv zeta.
  unfold PublishService._build_body.
  rewrite build_progress_updates_snoc.
  change (PublishService.progress_updates
            (PublishService.mk issue pr_desc updates)) with updates.
  change (PublishService.issue (PublishService.mk issue pr_desc updates))
    with issue.
  change (PublishService.pr_desc (PublishService.mk issue pr_desc updates))
    with pr_desc.
  change (PublishService.issue
            (PublishService.mk issue pr_desc (updates ++ [txt])%list))
    with issue.
  change (PublishService.pr_desc
            (PublishService.mk issue pr_desc (updates ++ [txt])%list))
    with pr_desc.
  now rewrite !append_assoc.
Qed.

(** ** The rendered fragment *)

(** X13: a section's block opens with ["<details open>"] exactly when its
    key is among [default_open]; with the default, that is the section
    keyed ["response"] and no other. *)
Theorem default_open_marks_block :
  forall (default_open : list string) (k v : string),
    String.prefix "<details open>"
      (PublishService.subsection default_open k v)
    = PyStr.contains default_open k
    /\ String.prefix "<details>"
         (PublishService.subsection default_open k v)
       = negb (PyStr.contains default_open k)
    /\ PyStr.contains PublishService.default_open_default k
       = String.eqb k "response".
Proof.
  intros default_open k v. unfold PublishService.subsection.
  split; [| split].
  - now destruct (PyStr.contains default_open k).
  - now destruct (PyStr.contains default_open k).
  - unfold PyStr.contains. simpl. now rewrite orb_false_r.
Qed.

Lemma title_from_length (s : string) :
  forall flag,
    PyStr.is_ascii s = true ->
    String.length (PyStr.title_from flag s) = String.length s.
Proof.
  induction s as [| c s IH]; intros flag Hs; [reflexivity |].
  simpl in Hs. apply andb_true_iff in Hs as [Hc Hs].
  apply Nat.ltb_lt in Hc.
  assert (H1 : String.length
                 (if flag then String (PyStr.to_lower c) EmptyString
                  else PyStr.title_char c) = 1).
  { destruct flag; [reflexivity |]. unfold PyStr.title_char.
    destruct (Nat.eqb_spec (nat_of_ascii c) 223) as [E | _]; [lia |].
    now destruct (_ || _ || _)%bool. }
  simpl PyStr.title_from.
  destruct (if flag then String (PyStr.to_lower c) EmptyString
            else PyStr.title_char c) as [| d [| d' t]];
    try discriminate H1.
  simpl. now rewrite (IH _ Hs).
Qed.

Lemma replace_char_length (old new : ascii) (s : string) :
  String.length (PyStr.replace_char old new s) = String.length s.
Proof. induction s as [| c s IH]; simpl; now rewrite ?IH. Qed.

Lemma replace_char_removes (old new : ascii) (s : string) :
  old <> new -> mem_char old (PyStr.replace_char old new s) = false.
Proof.
  intros Hne. induction s as [| c s IH]; [reflexivity |]. simpl.
  rewrite IH, orb_false_r.
  destruct (Ascii.eqb_spec c old) as [-> | Hc].
  - now apply Ascii.eqb_neq.
  - apply Ascii.eqb_neq. congruence.
Qed.

(** X14: the heading of a section has no underscore, every underscore
    of the key having become a space; for a key of ASCII characters it has
    as many characters as the key. *)
Theorem heading_has_no_underscore :
  forall k : string,
    let heading := PyStr.replace_char "_" " " (PyStr.title k) in
    mem_char "_" heading = false
    /\ (PyStr.is_ascii k = true ->
        String.length heading = String.length k).
Proof.
  intros k. cbv zeta. split.
  - apply replace_char_removes. discriminate.
  - intros Hk. unfold PyStr.title.
    now rewrite replace_char_length, title_from_length.
Qed.

Lemma heading_has_no_underscore_witness :
  PyStr.is_ascii "new_file" = true
  /\ mem_char "_" (PyStr.replace_char "_" " " (PyStr.title "new_file")) = false
  /\ String.length (PyStr.replace_char "_" " " (PyStr.title "new_file"))
     = String.length "new_file".
Proof.
  split; [reflexivity |]. split.
  - exact (proj1 (heading_has_no_underscore "new_file")).
  - exact (proj2 (heading_has_no_underscore "new_file") eq_refl).
Defined.

(** X15: without any section the fragment is still produced: an outer
    block with the summary and an empty content, two blank lines between
    the summary line and the closing tag. *)
Theorem empty_sections_fragment :
  forall (summary : string) (default_open : list string),
    PublishService.progress_str summary default_open []
    = "<details>" ++ PyStr.nl
        ++ "<summary>" ++ summary ++ "</summary>" ++ PyStr.nl
        ++ PyStr.nl ++ PyStr.nl ++ PyStr.nl
        ++ "</details>" ++ PyStr.nl.
Proof. reflexivity. Qed.

(** ** Lines of the rendered fragment *)

Lemma quote_lines_lines (v : string) :
  PyStr.splitlines (PublishService.quote_lines v)
  = map (fun line => "> " ++ line) (PyStr.splitlines v).
Proof.
  unfold PublishService.quote_lines. apply splitlines_join.
  pose proof (splitlines_no_linebreak v) as H.
  induction H as [| l ls Hl Hls IH]; simpl; constructor; auto.
  split; [exact Hl | discriminate].
Qed.

(** Whatever text comes first, a line feed after it ends the line being
    read: the lines of what follows are the lines of the whole from there
    on. *)
Lemma splitlines_from_past_line_feed (a : string) :
  (forall cur, exists pre, forall s,
      PyStr.splitlines_from cur (a ++ String PyStr.lf s)
      = (pre ++ PyStr.splitlines_from EmptyString s)%list)
  /\ (forall c cur, exists pre, forall s,
        PyStr.splitlines_from cur (String c a ++ String PyStr.lf s)
        = (pre ++ PyStr.splitlines_from EmptyString s)%list).
Proof.
  induction a as [| c' a [IH1 IH2]].
  - assert (H0 : forall cur, exists pre, forall s,
               PyStr.splitlines_from cur (EmptyString ++ String PyStr.lf s)
               = (pre ++ PyStr.splitlines_from EmptyString s)%list)
      by (intros cur; exists [cur]; reflexivity).
    split; [exact H0 |].
    intros c cur. simpl.
    destruct (Ascii.eqb c PyStr.cr); [exists [cur]; reflexivity |].
    destruct (PyStr.is_linebreak c).
    + exists [cur; EmptyString]. reflexivity.
    + exists [cur ++ String c EmptyString]. reflexivity.
  - split; [exact (IH2 c') |].
    intros c cur.
    assert (E : forall s,
               PyStr.splitlines_from cur
                 (String c (String c' a) ++ String PyStr.lf s)
               = if Ascii.eqb c PyStr.cr then
                   if Ascii.eqb c' PyStr.lf
                   then cur :: PyStr.splitlines_from EmptyString
                                 (a ++ String PyStr.lf s)
                   else cur :: PyStr.splitlines_from EmptyString
                                 (String c' a ++ String PyStr.lf s)
                 else if PyStr.is_linebreak c
                      then cur :: PyStr.splitlines_from EmptyString
                                    (String c' a ++ String PyStr.lf s)
                      else PyStr.splitlines_from (cur ++ String c EmptyString)
                             (String c' a ++ String PyStr.lf s))
      by reflexivity.
    destruct (IH1 EmptyString) as [p1 H1].
    destruct (IH2 c' EmptyString) as [p2 H2].
    destruct (IH2 c' (cur ++ String c EmptyString)) as [p3 H3].
    destruct (Ascii.eqb c PyStr.cr).
    + destruct (Ascii.eqb c' PyStr.lf).
      * exists (cur :: p1). intros s. now rewrite E, H1.
      * exists (cur :: p2). intros s. now rewrite E, H2.
    + destruct (PyStr.is_linebreak c).
      * exists (cur :: p2). intros s. now rewrite E, H2.
      * exists p3. intros s. now rewrite E, H3.
Qed.

(** Lines joined by line feeds and followed by one more are split off. *)
Lemma splitlines_from_joined (qs : list string) (t : string) :
  Forall (fun l => no_linebreak l = true) qs ->
  qs <> [] ->
  PyStr.splitlines_from EmptyString
    (PyStr.join PyStr.nl qs ++ String PyStr.lf t)
  = (qs ++ PyStr.splitlines_from EmptyString t)%list.
Proof.
  unfold PyStr.join. induction 1 as [| q qs Hq Hqs IH]; [congruence |].
  intros _. destruct qs as [| q2 qs].
  - simpl String.concat.
    now rewrite (splitlines_from_line_feed _ _ EmptyString Hq).
  - change (String.concat PyStr.nl (q :: q2 :: qs) ++ String PyStr.lf t)
      with ((q ++ String PyStr.lf (String.concat PyStr.nl (q2 :: qs)))
              ++ String PyStr.lf t).
    rewrite append_assoc.
    change (String PyStr.lf (String.concat PyStr.nl (q2 :: qs))
              ++ String PyStr.lf t)
      with (String PyStr.lf
              (String.concat PyStr.nl (q2 :: qs) ++ String PyStr.lf t)).
    rewrite (splitlines_from_line_feed _ _ EmptyString Hq).
    rewrite IH by discriminate. reflexivity.
Qed.

Lemma quoted_lines_no_linebreak (v : string) :
  Forall (fun l => no_linebreak l = true)
    (map (fun line => "> " ++ line) (PyStr.splitlines v)).
Proof.
  pose proof (splitlines_no_linebreak v) as Hv.
  induction Hv as [| l ls Hl Hls IH]; simpl; constructor;
    [exact Hl | exact IH].
Qed.

(** The quoted lines of a section are lines of its block, whatever text
    follows the block. *)
Lemma subsection_lines (default_open : list string) (k v rest q : string) :
  In q (map (fun line => "> " ++ line) (PyStr.splitlines v)) ->
  In q (PyStr.splitlines_from EmptyString
          (PublishService.subsection default_open k v ++ rest)).
Proof.
  intros Hq.
  set (qs := map (fun line => "> " ++ line) (PyStr.splitlines v)) in *.
  assert (Hqs : Forall (fun l => no_linebreak l = true) qs).
  { exact (quoted_lines_no_linebreak v). }
  assert (Hne : qs <> []) by (destruct qs; [destruct Hq | discriminate]).
  set (H := "<details"
              ++ (if PyStr.contains default_open k then " open" else EmptyString)
              ++ ">" ++ PyStr.nl ++ "<summary>"
              ++ PyStr.replace_char "_" " " (PyStr.title k) ++ "</summary>").
  assert (E : PublishService.subsection default_open k v ++ rest
              = H ++ String PyStr.lf
                  (EmptyString ++ String PyStr.lf
                     (PyStr.join PyStr.nl qs
                        ++ String PyStr.lf ("</details>" ++ rest)))).
  { unfold PublishService.subsection, PublishService.quote_lines, H, qs.
    rewrite ?append_assoc. simpl. rewrite ?append_assoc. simpl.
    destruct (PyStr.contains default_open k); simpl; rewrite ?append_assoc;
      reflexivity. }
  rewrite E.
  destruct (proj1 (splitlines_from_past_line_feed H) EmptyString) as [pre Hpre].
  rewrite Hpre.
  change (PyStr.splitlines_from EmptyString
            (EmptyString ++ String PyStr.lf
               (PyStr.join PyStr.nl qs ++ String PyStr.lf ("</details>" ++ rest))))
    with (EmptyString
            :: PyStr.splitlines_from EmptyString
                 (PyStr.join PyStr.nl qs
                    ++ String PyStr.lf ("</details>" ++ rest))).
  rewrite (splitlines_from_joined qs _ Hqs Hne).
  apply in_or_app. right. right. apply in_or_app. now left.
Qed.

(** A member of a joined list starts the text or follows a separator. *)
Lemma join_member (sep x : string) (l : list string) :
  In x l ->
  (exists rest, PyStr.join sep l = x ++ rest)
  \/ (exists a rest, PyStr.join sep l = a ++ sep ++ x ++ rest).
Proof.
  unfold PyStr.join. induction l as [| y l IH]; [intros [] |].
  intros [-> | Hin].
  - left. destruct l as [| z l].
    + exists EmptyString. simpl. now rewrite append_nil_r.
    + now exists (sep ++ String.concat sep (z :: l)).
  - right. destruct l as [| z l]; [destruct Hin |].
    change (String.concat sep (y :: z :: l))
      with (y ++ sep ++ String.concat sep (z :: l)).
    destruct (IH Hin) as [[rest E] | (a & rest & E)]; rewrite E.
    + now exists y, rest.
    + exists (y ++ sep ++ a), rest. now rewrite !append_assoc.
Qed.

(** X16: in the fragment that [publish_call] appends, every line of every
    section's text stands quoted twice, as ["> > " ++ line]: once by its
    section and once by the quoting of all sections together. *)
Theorem section_lines_quoted_twice :
  forall (summary : string) (default_open : list string)
         (kwargs : list (string * string)) (k v line : string),
    In (k, v) kwargs ->
    In line (PyStr.splitlines v) ->
    exists content,
      PublishService.progress_str summary default_open kwargs
      = "<details>" ++ PyStr.nl
          ++ "<summary>" ++ summary ++ "</summary>" ++ PyStr.nl
          ++ PyStr.nl
          ++ content ++ PyStr.nl
          ++ PyStr.nl
          ++ "</details>" ++ PyStr.nl
      /\ In ("> > " ++ line) (PyStr.splitlines content).
Proof.
  intros summary default_open kwargs k v line Hkv Hline.
  eexists. split; [reflexivity |].
  rewrite quote_lines_lines.
  change ("> > " ++ line) with ("> " ++ ("> " ++ line)).
  apply (in_map (fun l => "> " ++ l)).
  set (subs := map (fun kv => PublishService.subsection default_open
                                (fst kv) (snd kv)) kwargs).
  assert (Hsub : In (PublishService.subsection default_open k v) subs)
    by (unfold subs;
        exact (in_map (fun kv => PublishService.subsection default_open
                                   (fst kv) (snd kv)) kwargs (k, v) Hkv)).
  assert (Hq : In ("> " ++ line)
                 (map (fun l => "> " ++ l) (PyStr.splitlines v)))
    by exact (in_map (fun l => "> " ++ l) _ _ Hline).
  unfold PyStr.splitlines.
  destruct (join_member (PyStr.nl ++ PyStr.nl) _ _ Hsub)
    as [[rest E] | (a & rest & E)]; rewrite E.
  - now apply subsection_lines.
  - change (a ++ (PyStr.nl ++ PyStr.nl)
              ++ PublishService.subsection default_open k v ++ rest)
      with (a ++ String PyStr.lf
              (EmptyString ++ String PyStr.lf
                 (PublishService.subsection default_open k v ++ rest))).
    destruct (proj1 (splitlines_from_past_line_feed a) EmptyString)
      as [pre Hpre].
    rewrite Hpre. apply in_or_app. right. right.
    now apply subsection_lines.
Qed.

Lemma section_lines_quoted_twice_witness :
  exists content,
    PublishService.progress_str "Planning" ["response"]
      [("prompt", "Fix it"); ("response", "a" ++ PyStr.nl ++ "b")]
    = "<details>" ++ PyStr.nl
        ++ "<summary>" ++ "Planning" ++ "</summary>" ++ PyStr.nl
        ++ PyStr.nl
        ++ content ++ PyStr.nl
        ++ PyStr.nl
        ++ "</details>" ++ PyStr.nl
    /\ In ("> > " ++ "b") (PyStr.splitlines content).
Proof.
  apply (section_lines_quoted_twice "Planning" ["response"]
           [("prompt", "Fix it"); ("response", "a" ++ PyStr.nl ++ "b")]
           "response" ("a" ++ PyStr.nl ++ "b") "b").
  - right. now left.
  - right. now left.
Defined.

(** ** The two finds of the update path, and the happy paths *)

(** X17: the PATCH goes to the URL of the request that the find inside
    [_update] returned: when the two finds of one publish return different
    requests, it is the second one that is updated. *)
Theorem patch_follows_second_find :
  forall (net : Trace -> Request -> HttpResult)
         (self : GithubPublishService.Config)
         (title body : string) (tr tr1 tr2 : Trace) (pr : json)
         (entries : list (string * json)) (number : json),
    let headers :=
      [("Authorization", "Bearer " ++ GithubPublishService.token self);
       ("Accept", "application/vnd.github+json");
       ("X-GitHub-Api-Version", "2022-11-28")] in
    let pulls :=
      UrlPulls (GithubPublishService.owner self)
               (GithubPublishService.repo self) in
    let find :=
      mkRequest GET pulls headers
        [("state", "open");
         ("head", GithubPublishService.owner self ++ ":"
                    ++ GithubPublishService.head_branch self);
         ("base", GithubPublishService.base_branch self)]
        [] in
    let patch := fun number : json =>
      mkRequest PATCH
        (UrlPull (GithubPublishService.owner self)
                 (GithubPublishService.repo self) number)
        headers []
        [("title", title); ("body", body)] in
    GithubPublishService._find_existing_pr net self tr = (Ok pr, tr1) ->
    truthy pr = true ->
    GithubPublishService._find_existing_pr net self tr1
    = (Ok (JDict entries), tr2) ->
    dict_get entries "number" = Some number ->
    requests_of (snd (GithubPublishService._publish net self title body tr))
    = (requests_of tr ++ [find; find; patch number])%list.
Proof.
  intros net self title body tr tr1 tr2 pr entries number
         headers pulls find patch_to E1 T1 E2 Hn.
  assert (T2 : truthy (JDict entries) = true)
    by (destruct entries; [discriminate Hn | reflexivity]).
  rewrite (publish_after_find net self title body E1), T1.
  rewrite (update_after_find net self title body E2), T2.
  simpl. rewrite Hn. simpl.
  destruct (patch_shape net self number title body tr2) as (logs & S & R & _).
  rewrite S, requests_of_app. simpl. rewrite R.
  pose proof (find_requests net self tr) as R1. rewrite E1 in R1.
  pose proof (find_requests net self tr1) as R2. rewrite E2 in R2.
  simpl in R1, R2. rewrite R2, R1, <- !app_assoc. reflexivity.
Qed.

Lemma patch_follows_second_find_witness :
  requests_of
    (snd (GithubPublishService._publish net_renumbered example_config
            "title" "body" []))
  = ([] ++ [example_find; example_find;
            example_patch (JInt 8) "title" "body"])%list.
Proof.
  exact (patch_follows_second_find net_renumbered example_config
           "title" "body" []
           [EvRequest example_find (Responded found_response)]
           [EvRequest example_find (Responded found_response);
            EvRequest example_find (Responded found_8_response)]
           open_request_7 [("number", JInt 8); ("state", JStr "open")]
           (JInt 8) eq_refl eq_refl eq_refl eq_refl).
Defined.

(** X18: with no open request and the POST answered 201 with a JSON body,
    [_publish] returns normally and its trace is the find, the POST with
    head, base, title and body, and one log entry, "Pull request created
    successfully", with the decoded body. *)
Theorem created_successfully :
  forall (net : Trace -> Request -> HttpResult)
         (self : GithubPublishService.Config)
         (title body : string) (tr : Trace) (r1 r2 : Response) (j : json),
    let headers :=
      [("Authorization", "Bearer " ++ GithubPublishService.token self);
       ("Accept", "application/vnd.github+json");
       ("X-GitHub-Api-Version", "2022-11-28")] in
    let pulls :=
      UrlPulls (GithubPublishService.owner self)
               (GithubPublishService.repo self) in
    let find :=
      mkRequest GET pulls headers
        [("state", "open");
         ("head", GithubPublishService.owner self ++ ":"
                    ++ GithubPublishService.head_branch self);
         ("base", GithubPublishService.base_branch self)]
        [] in
    let post :=
      mkRequest POST pulls headers []
        [("head", GithubPublishService.head_branch self);
         ("base", GithubPublishService.base_branch self);
         ("title", title);
         ("body", body)] in
    net tr find = Responded r1 ->
    status_code r1 = 200%Z ->
    json_body r1 = Some (JList []) ->
    net (tr ++ [EvRequest find (Responded r1)])%list post = Responded r2 ->
    status_code r2 = 201%Z ->
    json_body r2 = Some j ->
    GithubPublishService._publish net self title body tr
    = (Ok tt,
       (tr ++ [EvRequest find (Responded r1);
               EvRequest post (Responded r2);
               EvLog "Pull request created successfully" (ResponseJson j)])%list).
Proof.
  intros net self title body tr r1 r2 j headers pulls find post
         H1 S1 J1 H2 S2 J2.
  change (net tr (GithubPublishService.find_request self) = Responded r1) in H1.
  change (net (tr ++ [EvRequest (GithubPublishService.find_request self)
                        (Responded r1)])%list
              (GithubPublishService.create_request self title body)
          = Responded r2) in H2.
  assert (F : GithubPublishService._find_existing_pr net self tr
              = (Ok JNull,
                 (tr ++ [EvRequest (GithubPublishService.find_request self)
                           (Responded r1)])%list)).
  { rewrite find_unfold, H1. cbv zeta. now rewrite S1, J1. }
  rewrite (publish_after_find net self title body F). simpl.
  rewrite create_unfold. cbv zeta. rewrite H2, S2, J2. simpl.
  now rewrite <- !app_assoc.
Qed.

Lemma created_successfully_witness :
  GithubPublishService._publish (net_accepting none_response) example_config
    "title" "body" []
  = (Ok tt,
     ([] ++ [EvRequest example_find (Responded none_response);
             EvRequest (example_post "title" "body")
               (Responded created_response);
             EvLog "Pull request created successfully"
               (ResponseJson open_request_7)])%list).
Proof.
  exact (created_successfully (net_accepting none_response) example_config
           "title" "body" [] none_response created_response open_request_7
           eq_refl eq_refl eq_refl eq_refl eq_refl eq_refl).
Defined.

(** X19: with an open request numbered [number] and the PATCH answered 200
    with a JSON body, [_publish] returns normally and its trace is the two
    finds, the PATCH to the URL of that request with the title and body,
    and one log entry, "Pull request updated successfully", with the
    decoded body. *)
Theorem updated_successfully :
  forall (net : Trace -> Request -> HttpResult)
         (self : GithubPublishService.Config)
         (title body : string) (tr : Trace) (r r2 : Response)
         (entries : list (string * json)) (number : json) (rest : list json)
         (j : json),
    let headers :=
      [("Authorization", "Bearer " ++ GithubPublishService.token self);
       ("Accept", "application/vnd.github+json");
       ("X-GitHub-Api-Version", "2022-11-28")] in
    let pulls :=
      UrlPulls (GithubPublishService.owner self)
               (GithubPublishService.repo self) in
    let find :=
      mkRequest GET pulls headers
        [("state", "open");
         ("head", GithubPublishService.owner self ++ ":"
                    ++ GithubPublishService.head_branch self);
         ("base", GithubPublishService.base_branch self)]
        [] in
    let patch :=
      mkRequest PATCH
        (UrlPull (GithubPublishService.owner self)
                 (GithubPublishService.repo self) number)
        headers []
        [("title", title); ("body", body)] in
    status_code r = 200%Z ->
    json_body r = Some (JList (JDict entries :: rest)) ->
    dict_get entries "number" = Some number ->
    (forall tr', net tr' find = Responded r) ->
    net (tr ++ [EvRequest find (Responded r); EvRequest find (Responded r)])%list
        patch = Responded r2 ->
    status_code r2 = 200%Z ->
    json_body r2 = Some j ->
    GithubPublishService._publish net self title body tr
    = (Ok tt,
       (tr ++ [EvRequest find (Responded r);
               EvRequest find (Responded r);
               EvRequest patch (Responded r2);
               EvLog "Pull request updated successfully" (ResponseJson j)])%list).
Proof.
  intros net self title body tr r r2 entries number rest j
         headers pulls find patch_to Hs Hj Hn Hnet H2 S2 J2.
  change (forall tr', net tr' (GithubPublishService.find_request self)
                      = Responded r) in Hnet.
  change (net (tr ++ [EvRequest (GithubPublishService.find_request self)
                        (Responded r);
                      EvRequest (GithubPublishService.find_request self)
                        (Responded r)])%list
              (GithubPublishService.update_request self number title body)
          = Responded r2) in H2.
  assert (Ht : truthy (JDict entries) = true)
    by (destruct entries; [discriminate Hn | reflexivity]).
  assert (F : forall tr',
             GithubPublishService._find_existing_pr net self tr'
             = (Ok (JDict entries),
                (tr' ++ [EvRequest (GithubPublishService.find_request self)
                           (Responded r)])%list)).
  { intros tr'. rewrite find_unfold, Hnet. cbv zeta. now rewrite Hs, Hj. }
  rewrite (publish_after_find net self title body (F tr)), Ht.
  rewrite (update_after_find net self title body (F _)), Ht.
  simpl. rewrite Hn. simpl. rewrite patch_unfold. cbv zeta.
  rewrite <- app_assoc. simpl app. rewrite H2, S2, J2. simpl.
  now rewrite <- !app_assoc.
Qed.

Lemma updated_successfully_witness :
  GithubPublishService._publish (net_accepting found_response) example_config
    "title" "body" []
  = (Ok tt,
     ([] ++ [EvRequest example_find (Responded found_response);
             EvRequest example_find (Responded found_response);
             EvRequest (example_patch (JInt 7) "title" "body")
               (Responded updated_response);
             EvLog "Pull request updated successfully"
               (ResponseJson open_request_7)])%list).
Proof.
  exact (updated_successfully (net_accepting found_response) example_config
           "title" "body" [] found_response updated_response
           [("number", JInt 7); ("state", JStr "open")] (JInt 7) []
           open_request_7
           eq_refl eq_refl eq_refl (fun _ => eq_refl)
           eq_refl eq_refl eq_refl).
Defined.

(** ** A run against a service that always answers *)

Section RunAbsorption.

Variable net : Trace -> Request -> HttpResult.
Variable self : GithubPublishService.Config.
Hypothesis answered :
  forall tr req, exists r, net tr req = Responded r /\ usable req r.

Lemma publish_returns (title body : string) (tr : Trace) :
  fst (GithubPublishService._publish net self title body tr) = Ok tt.
Proof.
  destruct (find_absorbs net self answered tr) as (pr & m1 & E1 & _ & _ & _).
  rewrite (publish_after_find net self title body E1).
  destruct (truthy pr).
  - destruct (update_absorbs net self answered title body (tr ++ m1)%list)
      as (m2 & E2 & _). now rewrite E2.
  - destruct (create_absorbs net self answered title body (tr ++ m1)%list)
      as (m2 & E2 & _). now rewrite E2.
Qed.

(** X20: when every request is answered by a response the code can use,
    no call of a run raises, whatever the statuses were: every entry
    point returns normally. *)
Theorem run_never_raises :
  forall (ops : list PublishService.Op) (st : PublishService.t * Trace),
    Forall (fun outcome => outcome = Ok tt)
      (fst (GithubPublishService.run net self ops st)).
Proof.
  unfold GithubPublishService.run.
  induction ops as [| op ops IH]; intros st; simpl; [constructor |].
  destruct (call_publish (GithubPublishService._publish net self) op st)
    as [E _].
  rewrite publish_returns in E.
  destruct (PublishService.call (GithubPublishService._publish net self) op st)
    as [outcome st1].
  specialize (IH st1).
  destruct (PublishService.run (GithubPublishService._publish net self) ops st1)
    as [outcomes st2].
  simpl in *. constructor; assumption.
Qed.

End RunAbsorption.

Lemma run_never_raises_witness :
  (forall tr req, exists r, net_found tr req = Responded r /\ usable req r)
  /\ Forall (fun outcome => outcome = Ok tt)
       (fst (GithubPublishService.run net_found example_config
               [PublishService.OpPublishUpdate "step 1";
                PublishService.OpSetPrDescription
                  (PullRequestDescription.mk "Guard" "Adds a guard." []);
                PublishService.OpFinalize]
               (example_accumulator EmptyString [], []))).
Proof.
  split; [exact net_found_answered |].
  exact (run_never_raises net_found example_config net_found_answered
           [PublishService.OpPublishUpdate "step 1";
            PublishService.OpSetPrDescription
              (PullRequestDescription.mk "Guard" "Adds a guard." []);
            PublishService.OpFinalize]
           (example_accumulator EmptyString [], [])).
Defined.
